(** * WagsTails: versioned-asset cache and retrieval

    A shallow embedding of the data-source classes of [wags_tails]
    ([drugbank.py], [guide_to_pharmacology.py], [rxnorm.py]) and of the
    Python library calls they make, followed by the properties of
    [get_latest] and of its helpers.

    Python exceptions are values of [PyExc]; code that reads or changes the
    data directory, the environment, the network or the log is a function
    [World -> Result A * World].  A raised exception keeps the effects that
    happened before it, as in Python.  A character is a code point below
    256.  Modules of the package that are not among the sources
    ([base_source.py], the download and the versioning helpers) are
    modelled from the spec, and said to be so where they are defined. *)

From Stdlib Require Import String Ascii List Bool Arith NArith ZArith Lia.
Import ListNotations.

Local Open Scope string_scope.
Local Open Scope list_scope.
Local Open Scope nat_scope.

(** ** Exceptions and results *)

Inductive PyExc : Type :=
| ValueError
| TypeError
| KeyError
| IndexError
| FileNotFoundError
| JSONDecodeError        (* requests' JSONDecodeError, a subclass of ValueError *)
| HTTPError              (* raised by [raise_for_status] *)
| ConnectionError        (* raised by [requests.get] on a transport failure *)
| BadZipFile
| RemoteDataError        (* wags_tails.base_source.RemoteDataError *)
| ParseError             (* the spec's name, raised by the absent versioning helper *)
| NetworkError.          (* the spec's name, raised by the absent downloader *)

(** [isinstance(e, ValueError)], as an [except ValueError] clause tests it. *)
Definition is_ValueError (e : PyExc) : bool :=
  match e with
  | ValueError | JSONDecodeError => true
  | _ => false
  end.

Definition is_KeyError (e : PyExc) : bool :=
  match e with KeyError => true | _ => false end.

Definition is_IndexError (e : PyExc) : bool :=
  match e with IndexError => true | _ => false end.

Inductive Result (A : Type) : Type :=
| Ok (a : A)
| Raise (e : PyExc).
Arguments Ok {A} a.
Arguments Raise {A} e.

Definition rbind {A B} (r : Result A) (k : A -> Result B) : Result B :=
  match r with
  | Ok a => k a
  | Raise e => Raise e
  end.

(** ** Data: JSON values, file contents, HTTP replies *)

Local Unset Elimination Schemes.

Inductive Json : Type :=
| JNull
| JBool (b : bool)
| JNum (z : Z)
| JStr (s : string)
| JArr (items : list Json)
| JObj (fields : list (string * Json)).

(** The bytes of a file or of a response body, through the three decoders
    the sources apply to them: [r.text], [r.json()] and [zipfile.ZipFile].
    [None] means that the decoder rejects the bytes. *)
Inductive Content : Type :=
| mkContent (text : string) (json : option Json)
            (zip : option (list (string * Content))).

Local Set Elimination Schemes.

Definition text (c : Content) : string :=
  match c with mkContent t _ _ => t end.
Definition json (c : Content) : option Json :=
  match c with mkContent _ j _ => j end.
Definition zip (c : Content) : option (list (string * Content)) :=
  match c with mkContent _ _ z => z end.

Inductive HttpReply : Type :=
| NoReply                                   (* no HTTP response at all *)
| Reply (status_code : nat) (body : Content).

(** A path is either a file of [self.data_dir], given by its name, or the
    temporary file of the downloader. *)
Inductive Path : Type :=
| DataFile (name : string)
| TempFile.

Inductive Level : Type := DEBUG | INFO | WARNING | ERROR.

Inductive Event : Type :=
| EvGet (url : string)                       (* [requests.get(url)] *)
| EvDownload (url : string) (outfile : Path). (* a download of [url] to [outfile] *)

(** ** The world *)

Record World : Type := mkWorld {
  data_dir : list (string * Content);  (* entries, in the order [glob] lists them *)
  tmp_file : option Content;
  environ : string -> option string;   (* [os.environ] *)
  remote : string -> HttpReply;        (* what a GET of each URL answers *)
  trace : list Event;                  (* network requests made, oldest first *)
  log : list (Level * string)          (* log records, oldest first *)
}.

Definition M (A : Type) : Type := World -> Result A * World.

Definition ret {A} (a : A) : M A := fun w => (Ok a, w).
Definition raise {A} (e : PyExc) : M A := fun w => (Raise e, w).
Definition bind {A B} (m : M A) (k : A -> M B) : M B :=
  fun w => match m w with
           | (Ok a, w') => k a w'
           | (Raise e, w') => (Raise e, w')
           end.
Definition lift {A} (r : Result A) : M A := fun w => (r, w).

(** [try: body except <handles>: handler] *)
Definition try_except {A} (body : M A) (handles : PyExc -> bool)
                      (handler : M A) : M A :=
  fun w => match body w with
           | (Raise e, w') => if handles e then handler w' else (Raise e, w')
           | ok => ok
           end.

Declare Scope py_scope.
Delimit Scope py_scope with py.
Notation "x <- c ;; k" := (bind c (fun x => k))
  (at level 61, c at next level, right associativity) : py_scope.
Notation "c ;; k" := (bind c (fun _ => k))
  (at level 61, right associativity) : py_scope.
Local Open Scope py_scope.

Definition set_data_dir (d : list (string * Content)) (w : World) : World :=
  mkWorld d (tmp_file w) (environ w) (remote w) (trace w) (log w).
Definition set_tmp_file (t : option Content) (w : World) : World :=
  mkWorld (data_dir w) t (environ w) (remote w) (trace w) (log w).
Definition add_event (e : Event) (w : World) : World :=
  mkWorld (data_dir w) (tmp_file w) (environ w) (remote w) (trace w ++ [e]) (log w).
Definition add_log (l : Level) (msg : string) (w : World) : World :=
  mkWorld (data_dir w) (tmp_file w) (environ w) (remote w) (trace w) (log w ++ [(l, msg)]).

(** [_logger.debug], [.info], [.warning], [.error]: the record keeps the
    level and the text of the message as the source writes it, with its
    placeholders unfilled. *)
Definition logger (l : Level) (msg : string) : M unit :=
  fun w => (Ok tt, add_log l msg w).

Definition emit (e : Event) : M unit := fun w => (Ok tt, add_event e w).

(** *** Files *)

Fixpoint lookup {A} (k : string) (l : list (string * A)) : option A :=
  match l with
  | [] => None
  | (k', v) :: l' => if String.eqb k k' then Some v else lookup k l'
  end.

Fixpoint remove_key {A} (k : string) (l : list (string * A)) : list (string * A) :=
  match l with
  | [] => []
  | (k', v) :: l' => if String.eqb k k' then remove_key k l' else (k', v) :: remove_key k l'
  end.

(** Writing replaces the content of an existing entry where it stands and
    adds a new entry at the end. *)
Fixpoint store {A} (k : string) (v : A) (l : list (string * A)) : list (string * A) :=
  match l with
  | [] => [(k, v)]
  | (k', v') :: l' => if String.eqb k k' then (k', v) :: l' else (k', v') :: store k v l'
  end.

Definition read_file (p : Path) (w : World) : option Content :=
  match p with
  | DataFile n => lookup n (data_dir w)
  | TempFile => tmp_file w
  end.

(** [Path.exists()] *)
Definition exists_ (p : Path) (w : World) : bool :=
  match read_file p w with Some _ => true | None => false end.

Definition write_file (p : Path) (c : Content) (w : World) : World :=
  match p with
  | DataFile n => set_data_dir (store n c (data_dir w)) w
  | TempFile => set_tmp_file (Some c) w
  end.

Definition delete_file (p : Path) (w : World) : World :=
  match p with
  | DataFile n => set_data_dir (remove_key n (data_dir w)) w
  | TempFile => set_tmp_file None w
  end.

(** [os.remove(path)] *)
Definition os_remove (p : Path) : M unit :=
  fun w => if exists_ p w then (Ok tt, delete_file p w)
           else (Raise FileNotFoundError, w).

(** The file names of the data directory, as [Path.glob] walks them. *)
Definition listing (w : World) : list string := map fst (data_dir w).

(** ** Python's string operations *)

Definition chars (s : string) : list ascii := list_ascii_of_string s.
Definition str (l : list ascii) : string := string_of_list_ascii l.

Definition newline : ascii := "010"%char.

Definition is_digit (c : ascii) : bool :=
  let n := nat_of_ascii c in (48 <=? n) && (n <=? 57).

Definition digit_value (c : ascii) : N := N.of_nat (nat_of_ascii c - 48).

(** [str.isspace] *)
Definition is_space (c : ascii) : bool :=
  let n := nat_of_ascii c in
  ((9 <=? n) && (n <=? 13)) || ((28 <=? n) && (n <=? 32))
  || (n =? 133) || (n =? 160).

Fixpoint lstrip (l : list ascii) : list ascii :=
  match l with
  | c :: l' => if is_space c then lstrip l' else l
  | [] => []
  end.

(** [s.strip()] *)
Definition strip (l : list ascii) : list ascii :=
  rev (lstrip (rev (lstrip l))).

(** [s.split(sep)] for a separator of one character. *)
Fixpoint split_on (sep : ascii) (l : list ascii) : list (list ascii) :=
  match l with
  | [] => [[]]
  | c :: l' =>
      if Ascii.eqb c sep then [] :: split_on sep l'
      else match split_on sep l' with
           | first :: others => (c :: first) :: others
           | [] => [[c]]
           end
  end.

Fixpoint starts_with (prefix l : list ascii) : bool :=
  match prefix, l with
  | [], _ => true
  | p :: prefix', c :: l' => Ascii.eqb p c && starts_with prefix' l'
  | _ :: _, [] => false
  end.

(** [sub in s] *)
Fixpoint contains (sub l : list ascii) : bool :=
  starts_with sub l ||
  match l with
  | [] => false
  | _ :: l' => contains sub l'
  end.

(** [int(s)] on strings made of decimal digits; the empty string and any
    other character raise [ValueError]. *)
Fixpoint int_digits (acc : N) (l : list ascii) : Result N :=
  match l with
  | [] => Ok acc
  | c :: l' => if is_digit c then int_digits (10 * acc + digit_value c)%N l'
               else Raise ValueError
  end.

Definition py_int (l : list ascii) : Result N :=
  match l with
  | [] => Raise ValueError
  | _ => int_digits 0 l
  end.

(** ** Regular expressions

    The fragment of [re] that the patterns of the sources use: a sequence
    of single characters, of greedy repetitions of one character class and
    of the two ends of one capture group. *)

Inductive ReItem : Type :=
| One (p : ascii -> bool)             (* a literal, [.], [\d] or a set *)
| Plus (p : ascii -> bool)            (* [p+] *)
| Star (p : ascii -> bool)            (* [p*] *)
| Times (n : nat) (p : ascii -> bool) (* [p{n}] *)
| GroupOpen
| GroupClose.

Definition Regex : Type := list ReItem.

Definition re_any (c : ascii) : bool := negb (Ascii.eqb c newline).
Definition re_dot (c : ascii) : bool := Ascii.eqb c "."%char.
Definition re_digit_or_dot (c : ascii) : bool := is_digit c || re_dot c.

Definition re_lit (s : string) : Regex :=
  map (fun c => One (Ascii.eqb c)) (chars s).

Section Matcher.
Context {R : Type}.

(** Zero or more characters of class [p], the longest run first;
    [taken] holds the characters consumed so far, last first. *)
Fixpoint greedy (p : ascii -> bool)
                (k : list ascii -> list ascii -> option R)
                (taken : list ascii) (s : list ascii) : option R :=
  match s with
  | c :: s' =>
      if p c then
        match greedy p k (c :: taken) s' with
        | Some r => Some r
        | None => k taken s
        end
      else k taken s
  | [] => k taken s
  end.

Fixpoint exactly (n : nat) (p : ascii -> bool)
                 (k : list ascii -> list ascii -> option R)
                 (taken : list ascii) (s : list ascii) : option R :=
  match n with
  | O => k taken s
  | S n' =>
      match s with
      | c :: s' => if p c then exactly n' p k (c :: taken) s' else None
      | [] => None
      end
  end.
End Matcher.

(** A match of [items] at the start of [s]: the text of the group and what
    follows the match.  [acc] is the text of the group so far, last first. *)
Fixpoint re_run (items : Regex) (in_group : bool) (acc : list ascii)
                (s : list ascii) : option (list ascii * list ascii) :=
  let grow taken := if in_group then taken ++ acc else acc in
  match items with
  | [] => Some (rev acc, s)
  | GroupOpen :: items' => re_run items' true acc s
  | GroupClose :: items' => re_run items' false acc s
  | One p :: items' =>
      match s with
      | c :: s' => if p c then re_run items' in_group (grow [c]) s' else None
      | [] => None
      end
  | Plus p :: items' =>
      match s with
      | c :: s' =>
          if p c then
            greedy p (fun taken rest => re_run items' in_group (grow taken) rest) [c] s'
          else None
      | [] => None
      end
  | Star p :: items' =>
      greedy p (fun taken rest => re_run items' in_group (grow taken) rest) [] s
  | Times n p :: items' =>
      exactly n p (fun taken rest => re_run items' in_group (grow taken) rest) [] s
  end.

(** [re.match(pattern, s)], giving [groups()[0]]. *)
Definition re_match (pattern : Regex) (s : list ascii) : option (list ascii) :=
  option_map fst (re_run pattern false [] s).

(** [re.findall(pattern, s)] for a pattern with one group: the group of
    every match, scanning from the left, matches not overlapping. *)
Fixpoint re_findall_fuel (fuel : nat) (pattern : Regex) (s : list ascii)
  : list (list ascii) :=
  match fuel with
  | O => []
  | S fuel' =>
      match re_run pattern false [] s with
      | Some (g, rest) =>
          if length rest <? length s
          then g :: re_findall_fuel fuel' pattern rest
          else g :: match s with
                    | [] => []
                    | _ :: s' => re_findall_fuel fuel' pattern s'
                    end
      | None =>
          match s with
          | [] => []
          | _ :: s' => re_findall_fuel fuel' pattern s'
          end
      end
  end.

Definition re_findall (pattern : Regex) (s : list ascii) : list (list ascii) :=
  re_findall_fuel (S (length s)) pattern s.

(** ** [Path.glob]

    A pattern of literal characters and [*], matched against a file name. *)
Fixpoint glob_match (pattern : list ascii) (name : list ascii) : bool :=
  match pattern with
  | [] => match name with [] => true | _ => false end
  | p :: pattern' =>
      if Ascii.eqb p "*"%char then
        (fix star (n : list ascii) : bool :=
           glob_match pattern' n ||
           match n with
           | [] => false
           | _ :: n' => star n'
           end) name
      else
        match name with
        | c :: name' => Ascii.eqb p c && glob_match pattern' name'
        | [] => false
        end
  end.

(** [self.data_dir.glob(pattern)] *)
Definition glob (pattern : string) (w : World) : list string :=
  filter (fun n => glob_match (chars pattern) (chars n)) (listing w).

(** ** [requests] *)

Record Response : Type := mkResponse {
  status_code : nat;
  body : Content
}.

(** [requests.get(url)] *)
Definition requests_get (url : string) : M Response :=
  emit (EvGet url);;
  fun w => match remote w url with
           | NoReply => (Raise ConnectionError, w)
           | Reply st c => (Ok (mkResponse st c), w)
           end.

(** The status codes for which [raise_for_status] raises. *)
Definition is_error_status (st : nat) : bool := (400 <=? st) && (st <? 600).
Definition is_success_status (st : nat) : bool := (200 <=? st) && (st <? 300).
Arguments is_error_status st : simpl never.
Arguments is_success_status st : simpl never.

(** [r.raise_for_status()] *)
Definition raise_for_status (r : Response) : M unit :=
  if is_error_status (status_code r) then raise HTTPError else ret tt.

(** [r.json()] *)
Definition response_json (r : Response) : Result Json :=
  match json (body r) with
  | Some j => Ok j
  | None => Raise JSONDecodeError
  end.

(** [obj[i]] for an integer [i >= 0] *)
Definition getitem_int (obj : Json) (i : nat) : Result Json :=
  match obj with
  | JArr items =>
      match nth_error items i with
      | Some x => Ok x
      | None => Raise IndexError
      end
  | JStr s =>
      match nth_error (chars s) i with
      | Some c => Ok (JStr (String c EmptyString))
      | None => Raise IndexError
      end
  | JObj _ => Raise KeyError        (* the keys of a decoded object are strings *)
  | JNull | JBool _ | JNum _ => Raise TypeError
  end.

(** [obj[key]] for a string [key] *)
Definition getitem_str (obj : Json) (key : string) : Result Json :=
  match obj with
  | JObj fields =>
      match lookup key fields with
      | Some x => Ok x
      | None => Raise KeyError
      end
  | _ => Raise TypeError
  end.

(** ** Version helpers *)

(** Modelled from the spec: [parse_file_version] of the versioning module,
    which is not among the sources.  The spec's [VersionCodec.parse]: the
    version is the group of the pattern matched against the file name, and
    a name that does not match the pattern fails with [ParseError]. *)
Definition parse_file_version (file : string) (pattern : Regex) : Result string :=
  match re_match pattern (chars file) with
  | Some g => Ok (str g)
  | None => Raise ParseError
  end.

(** Modelled from the spec: the name of the downloader's temporary file,
    which the spec leaves open. *)
Definition tmp_name : string := "wags_tails_tmp".

(** [path.name] *)
Definition path_name (p : Path) : string :=
  match p with
  | DataFile n => n
  | TempFile => tmp_name
  end.

Fixpoint map_result {A B} (f : A -> Result B) (l : list A) : Result (list B) :=
  match l with
  | [] => Ok []
  | x :: l' => rbind (f x) (fun y => rbind (map_result f l') (fun ys => Ok (y :: ys)))
  end.

(** [a < b] on lists of integers *)
Fixpoint list_lt (a b : list N) : bool :=
  match a, b with
  | [], [] => false
  | [], _ :: _ => true
  | _ :: _, [] => false
  | x :: a', y :: b' => if N.eqb x y then list_lt a' b' else N.ltb x y
  end.

Section Sorted.
Context {A K : Type} (lt : K -> K -> bool) (key : A -> K).

(** [x] goes before the first element whose key is not below its own. *)
Fixpoint insert_by (x : A) (l : list A) : list A :=
  match l with
  | [] => [x]
  | y :: l' => if lt (key y) (key x) then y :: insert_by x l' else x :: l
  end.

(** [sorted(l, key=key)]: ascending and stable. *)
Definition sorted (l : list A) : list A := fold_right insert_by [] l.

(** No element of [l] is above one that comes after it. *)
Fixpoint ascending (l : list A) : Prop :=
  match l with
  | [] => True
  | x :: l' => (forall y, In y l' -> lt (key y) (key x) = false) /\ ascending l'
  end.
End Sorted.

Section Latest.
Context {A K : Type} (lt : K -> K -> bool) (key : A -> K).

(** One pass over [l] from its end: the element kept is replaced by an
    earlier one only when the key of the earlier one is above its own. *)
Fixpoint latest_of (l : list A) : option A :=
  match l with
  | [] => None
  | x :: l' =>
      match latest_of l' with
      | None => Some x
      | Some best => if lt (key best) (key x) then Some x else Some best
      end
  end.
End Latest.

(** ** The downloader *)

(** Modelled from the spec: [download_http] of the downloads module, which
    is not among the sources.  The spec's [Downloader.fetch]: the body is
    received into a temporary file; a failed transfer or a non-success
    status fails with [NetworkError]; without a post-processing step the
    temporary file is moved to the destination, with one the step is given
    the temporary file and the destination and produces the final file. *)
Definition download_http (url : string) (outfile : Path)
           (handler : option (Path -> Path -> M unit)) : M unit :=
  emit (EvDownload url outfile);;
  fun w =>
    match remote w url with
    | NoReply => (Raise NetworkError, w)
    | Reply st c =>
        if is_success_status st then
          let w1 := write_file TempFile c w in
          match handler with
          | None => (Ok tt, delete_file TempFile (write_file outfile c w1))
          | Some h => h TempFile outfile w1
          end
        else (Raise NetworkError, w)
    end.

(** The methods a source inherits from [DataSource] ([base_source.py] is
    not among the sources). *)
Record DataSource : Type := mkDataSource {
  _get_latest_local_file : string -> M Path;
  _http_download : string -> Path -> M unit
}.

(** ** DrugBank *)

Module DrugBankData.

Definition _src_name : string := "drugbank".
Definition _filetype : string := "csv".

(** [r"drugbank_([\d\.]+).csv"] *)
Definition version_re : Regex :=
  re_lit "drugbank_"
  ++ [GroupOpen; Plus re_digit_or_dot; GroupClose; One re_any]
  ++ re_lit "csv".

Section Class.
(** [str(x)], as an f-string applies it to a decoded JSON value. *)
Variable py_str : Json -> string.
(** [handle_zip] of the downloads module, which is not among the sources. *)
Variable handle_zip : Path -> Path -> M unit.

Definition releases_url : string := "https://go.drugbank.com/releases.json".

Definition _get_latest_version : M (Json * Json) :=
  r <- requests_get releases_url;;
  raise_for_status r;;
  try_except
    (j <- lift (response_json r);;
     latest <- lift (getitem_int j 0);;
     version <- lift (getitem_str latest "version");;
     url <- lift (getitem_str latest "url");;
     ret (version, url))
    (fun e => is_KeyError e || is_IndexError e)
    (raise RemoteDataError).

(** The body of the [for] loop, over the files the glob lists. *)
Fixpoint file_version_pairs (files : list string)
  : Result (list (Path * string * list N)) :=
  match files with
  | [] => Ok []
  | file :: files' =>
      rbind (parse_file_version file version_re) (fun version =>
      rbind (map_result py_int (split_on "."%char (chars version)))
            (fun formatted_version =>
      rbind (file_version_pairs files') (fun pairs =>
      Ok ((DataFile file, version, formatted_version) :: pairs))))
  end.

Definition _get_latest_local_file (glob_pattern : string) : M (Path * string) :=
  logger DEBUG "Getting local match against pattern {glob}...";;
  fun w =>
    (pairs <- lift (file_version_pairs (glob glob_pattern w));;
     let files := sorted list_lt (fun p => snd p) pairs in
     match files with
     | [] => raise FileNotFoundError
     | first :: others =>
         let latest := last others first in
         logger DEBUG "Returning {latest[0]} as most recent locally-available file.";;
         ret (fst (fst latest), snd (fst latest))
     end) w.

Definition _download_data (url : string) (outfile : Path) : M unit :=
  download_http url outfile (Some handle_zip).

Definition get_latest (from_local force_refresh : bool) : M (Path * Json) :=
  if force_refresh && from_local then raise ValueError
  else if from_local then
    found <- _get_latest_local_file "drugbank_*.csv";;
    ret (fst found, JStr (snd found))
  else
    latest <- _get_latest_version;;
    let latest_version := fst latest in
    let latest_url_base := snd latest in
    let latest_url :=
      String.append (py_str latest_url_base) "/downloads/all-drugbank-vocabulary" in
    let latest_file :=
      DataFile (String.append "drugbank_"
                  (String.append (py_str latest_version) ".csv")) in
    fun w =>
      if negb force_refresh && exists_ latest_file w then
        (logger DEBUG
           "Found existing file, {latest_file.name}, matching latest version {latest_version}.";;
         ret (latest_file, latest_version)) w
      else
        (_download_data latest_url latest_file;;
         ret (latest_file, latest_version)) w.
End Class.

End DrugBankData.

(** ** The base class *)

Module BaseSource.

(** Modelled from the spec: [LocalCacheScanner.scan] of the absent
    [base_source.py]: the files matching the glob, each with the version
    parsed from its name; a name that does not match the version pattern
    is skipped; the candidates are sorted by the ordering of the
    versions. *)
Fixpoint candidates (version_pattern : Regex) (files : list string)
  : list (Path * string) :=
  match files with
  | [] => []
  | file :: files' =>
      match parse_file_version file version_pattern with
      | Ok version => (DataFile file, version) :: candidates version_pattern files'
      | Raise _ => candidates version_pattern files'
      end
  end.

(** Modelled from the spec: [LocalCacheScanner.latest]: the maximum of the
    scan, [FileNotFoundError] (the spec's [NotFoundError]) when the scan
    is empty. *)
Definition latest (glob_pattern : string) (version_pattern : Regex)
           (lt : string -> string -> bool) : M (Path * string) :=
  fun w =>
    match sorted lt snd (candidates version_pattern (glob glob_pattern w)) with
    | [] => (Raise FileNotFoundError, w)
    | first :: others => (Ok (last others first), w)
    end.

(** The whole file name as the version. *)
Definition name_re : Regex := [GroupOpen; Star re_any; GroupClose].

(** Modelled from the spec: the two methods of [DataSource] that
    [GToPLigandData] calls: the latest local file among those matching a
    glob, by the default order of file names, and a download with no
    post-processing step. *)
Definition data_source : DataSource :=
  {| _get_latest_local_file := fun glob_pattern =>
       found <- latest glob_pattern name_re String.ltb;;
       ret (fst found);
     _http_download := fun url outfile => download_http url outfile None |}.

Section Class.
Variables _src_name _filetype : string.
(** The remote-version strategy and the download step of the source. *)
Variable _get_latest_version : M string.
Variable _download_data : string -> Path -> M unit.

(** [<source>_<version>.<ext>] *)
Definition file_name (version : string) : string :=
  String.append _src_name
    (String.append "_" (String.append version (String.append "." _filetype))).

Definition file_re : Regex :=
  re_lit (String.append _src_name "_")
  ++ [GroupOpen; Plus re_any; GroupClose; One re_dot]
  ++ re_lit _filetype.

(** Modelled from the spec: [DataSource.get_latest], the transition
    rules 1 to 6 of the orchestrator for a source of one file. *)
Definition get_latest (from_local force_refresh : bool) : M (Path * string) :=
  if force_refresh && from_local then raise ValueError
  else if from_local then
    latest (file_name "*") file_re String.ltb
  else
    latest_version <- _get_latest_version;;
    let latest_file := DataFile (file_name latest_version) in
    fun w =>
      if negb force_refresh && exists_ latest_file w then
        (Ok (latest_file, latest_version), w)
      else
        (_download_data latest_version latest_file;;
         ret (latest_file, latest_version)) w.
End Class.

End BaseSource.

(** ** Guide to Pharmacology *)

Module GToPLigandData.

Record GtoPLigandPaths : Type := mkGtoPLigandPaths {
  ligands : Path;
  ligand_id_mapping : Path
}.

(** [r"Current Release Version (\\d{4}\\.\\d) \\(.*\\)"] *)
Definition release_re : Regex :=
  re_lit "Current Release Version "
  ++ [GroupOpen; Times 4 is_digit; One re_dot; One is_digit; GroupClose]
  ++ re_lit " (" ++ [Star re_any] ++ re_lit ")".

(** [r"gtop_ligands_(\\d{4}\\.\\d+).tsv"] *)
Definition ligands_re : Regex :=
  re_lit "gtop_ligands_"
  ++ [GroupOpen; Times 4 is_digit; One re_dot; Plus is_digit; GroupClose; One re_any]
  ++ re_lit "tsv".

Definition homepage : string := "https://www.guidetopharmacology.org/".

(** The [for ... else] loop over the lines of the home page. *)
Fixpoint find_release (r_text : list (list ascii)) : Result string :=
  match r_text with
  | [] => Raise RemoteDataError
  | line :: r_text' =>
      if contains (chars "Current Release Version") line then
        match re_findall release_re (strip line) with
        | first :: _ => Ok (str first)
        | [] => find_release r_text'
        end
      else find_release r_text'
  end.

Definition _get_latest_version : M string :=
  r <- requests_get homepage;;
  raise_for_status r;;
  let r_text := split_on newline (chars (text (body r))) in
  lift (find_release r_text).

Definition ligands_name (version : string) : string :=
  String.append "gtop_ligands_" (String.append version ".tsv").
Definition ligand_id_mapping_name (version : string) : string :=
  String.append "gtop_ligand_id_mapping_" (String.append version ".tsv").

Definition ligands_url : string :=
  "https://www.guidetopharmacology.org/DATA/ligands.tsv".
Definition ligand_id_mapping_url : string :=
  "https://www.guidetopharmacology.org/DATA/ligand_id_mapping.tsv".

Section Class.
Variable base : DataSource.

Definition _download_files (file_paths : GtoPLigandPaths) : M unit :=
  _http_download base ligands_url (ligands file_paths);;
  _http_download base ligand_id_mapping_url (ligand_id_mapping file_paths).

Definition get_latest (from_local force_refresh : bool)
  : M (GtoPLigandPaths * string) :=
  if force_refresh && from_local then raise ValueError
  else if from_local then
    ligands_path <- _get_latest_local_file base "gtop_ligands_*.tsv";;
    ligand_id_mapping_path <-
      _get_latest_local_file base "gtop_ligand_id_mapping_*.tsv";;
    let file_paths := mkGtoPLigandPaths ligands_path ligand_id_mapping_path in
    version <- lift (parse_file_version (path_name ligands_path) ligands_re);;
    ret (file_paths, version)
  else
    latest_version <- _get_latest_version;;
    let ligands_path := DataFile (ligands_name latest_version) in
    let ligand_id_mapping_path :=
      DataFile (ligand_id_mapping_name latest_version) in
    let file_paths := mkGtoPLigandPaths ligands_path ligand_id_mapping_path in
    fun w =>
      let download :=
        _download_files file_paths;;
        ret (file_paths, latest_version) in
      if negb force_refresh then
        if exists_ ligands_path w && exists_ ligand_id_mapping_path w then
          (logger DEBUG
             "Found existing files, {file_paths}, matching latest version {latest_version}.";;
           ret (file_paths, latest_version)) w
        else if exists_ ligands_path w || exists_ ligand_id_mapping_path w then
          (logger WARNING
             "Existing files, {file_paths}, not all available -- attempting full download.";;
           download) w
        else download w
      else download w.
End Class.

End GToPLigandData.

(** ** [datetime] *)

Module Datetime.

Record date : Type := mkDate { year : N; month : N; day : N }.

Definition is_leap (y : N) : bool :=
  (((y mod 4 =? 0) && negb (y mod 100 =? 0)) || (y mod 400 =? 0))%N.

Definition days_in_month (y m : N) : N :=
  match m with
  | 2 => if is_leap y then 29 else 28
  | 4 | 6 | 9 | 11 => 30
  | _ => 31
  end%N.

(** [datetime(year, month, day)] *)
Definition make (y m d : N) : Result date :=
  if ((1 <=? y) && (y <=? 9999) && (1 <=? m) && (m <=? 12)
      && (1 <=? d) && (d <=? days_in_month y m))%N
  then Ok (mkDate y m d) else Raise ValueError.

(** The directives of a format string. *)
Inductive Directive : Type :=
| pY            (* [%Y] *)
| pm            (* [%m] *)
| pd            (* [%d] *)
| pb            (* [%b] *)
| lit (c : ascii).

Definition Format : Type := list Directive.

Definition literal (s : string) : Format := map lit (chars s).

Definition lower (c : ascii) : ascii :=
  let n := nat_of_ascii c in
  if (65 <=? n) && (n <=? 90) then ascii_of_nat (n + 32) else c.

(** The abbreviated month names of the C locale, in lower case. *)
Definition a_month : list string :=
  ["jan"; "feb"; "mar"; "apr"; "may"; "jun";
   "jul"; "aug"; "sep"; "oct"; "nov"; "dec"].

Fixpoint index_of (s : string) (l : list string) (i : N) : option N :=
  match l with
  | [] => None
  | x :: l' => if String.eqb s x then Some i else index_of s l' (i + 1)%N
  end.

Definition between (lo hi : nat) (c : ascii) : bool :=
  let n := nat_of_ascii c in (48 + lo <=? n) && (n <=? 48 + hi).

(** The fields found so far: year, month, day. *)
Definition Fields : Type := (N * N * N)%type.
Definition set_year (y : N) (f : Fields) : Fields := (y, snd (fst f), snd f).
Definition set_month (m : N) (f : Fields) : Fields := (fst (fst f), m, snd f).
Definition set_day (d : N) (f : Fields) : Fields := (fst f, d).

Definition two (p1 p2 : ascii -> bool) (s : list ascii) : list (N * list ascii) :=
  match s with
  | c1 :: c2 :: rest =>
      if p1 c1 && p2 c2 then [((10 * digit_value c1 + digit_value c2)%N, rest)] else []
  | _ => []
  end.

Definition one (p : ascii -> bool) (s : list ascii) : list (N * list ascii) :=
  match s with
  | c :: rest => if p c then [(digit_value c, rest)] else []
  | [] => []
  end.

Definition blank_one (p : ascii -> bool) (s : list ascii) : list (N * list ascii) :=
  match s with
  | c1 :: c2 :: rest =>
      if Ascii.eqb c1 " "%char && p c2 then [(digit_value c2, rest)] else []
  | _ => []
  end.

Definition with_field (set : N -> Fields -> Fields) (l : list (N * list ascii))
  : list ((Fields -> Fields) * list ascii) :=
  map (fun vr => (set (fst vr), snd vr)) l.

(** What a directive can match at the start of [s], in the order in which
    its regular expression tries the alternatives:
    [%d] is [3[0-1]|[1-2]\\d|0[1-9]|[1-9]| [1-9]],
    [%m] is [1[0-2]|0[1-9]|[1-9]], [%Y] is [\\d\\d\\d\\d], [%b] is one of
    the month names; the match ignores case.  White space and [%] as
    literal characters of a format are not covered. *)
Definition alternatives (d : Directive) (s : list ascii)
  : list ((Fields -> Fields) * list ascii) :=
  match d with
  | pd =>
      with_field set_day
        (two (between 3 3) (between 0 1) s ++ two (between 1 2) is_digit s
         ++ two (between 0 0) (between 1 9) s ++ one (between 1 9) s
         ++ blank_one (between 1 9) s)
  | pm =>
      with_field set_month
        (two (between 1 1) (between 0 2) s
         ++ two (between 0 0) (between 1 9) s ++ one (between 1 9) s)
  | pY =>
      match s with
      | c1 :: c2 :: c3 :: c4 :: rest =>
          if is_digit c1 && is_digit c2 && is_digit c3 && is_digit c4
          then [(set_year (1000 * digit_value c1 + 100 * digit_value c2
                           + 10 * digit_value c3 + digit_value c4)%N, rest)]
          else []
      | _ => []
      end
  | pb =>
      match s with
      | c1 :: c2 :: c3 :: rest =>
          match index_of (str [lower c1; lower c2; lower c3]) a_month 1%N with
          | Some m => [(set_month m, rest)]
          | None => []
          end
      | _ => []
      end
  | lit c =>
      match s with
      | c' :: rest => if Ascii.eqb (lower c) (lower c') then [(fun f => f, rest)] else []
      | [] => []
      end
  end.

Fixpoint first_some {A B} (f : A -> option B) (l : list A) : option B :=
  match l with
  | [] => None
  | x :: l' => match f x with Some y => Some y | None => first_some f l' end
  end.

(** The match of the format's regular expression at the start of [s]. *)
Fixpoint scan (fmt : Format) (f : Fields) (s : list ascii)
  : option (Fields * list ascii) :=
  match fmt with
  | [] => Some (f, s)
  | d :: fmt' =>
      first_some (fun alt => scan fmt' (fst alt f) (snd alt)) (alternatives d s)
  end.

(** [datetime.strptime(s, fmt)]: no match, text left after the match and
    a date that does not exist raise [ValueError]. *)
Definition strptime (s : string) (fmt : Format) : Result date :=
  match scan fmt (1900, 1, 1)%N (chars s) with
  | Some (y, m, d, []) => make y m d
  | _ => Raise ValueError
  end.

Definition digit_char (k : N) : ascii := ascii_of_N (48 + k).

Definition pad2 (n : N) : list ascii :=
  [digit_char (n / 10); digit_char (n mod 10)]%N.

Definition pad4 (n : N) : list ascii :=
  [digit_char (n / 1000); digit_char (n / 100 mod 10);
   digit_char (n / 10 mod 10); digit_char (n mod 10)]%N.

Definition capitalize (s : string) : list ascii :=
  match chars s with
  | c :: l => ascii_of_nat (nat_of_ascii c - 32) :: l
  | [] => []
  end.

(** [%Y] as the C library writes it: the decimal digits of the year, with
    no zero before them, so fewer than four for a year below 1000. *)
Definition year_digits (y : N) : list ascii :=
  (if y <? 10 then [digit_char y]
   else if y <? 100 then pad2 y
   else if y <? 1000 then
     [digit_char (y / 100); digit_char (y / 10 mod 10); digit_char (y mod 10)]
   else pad4 y)%N.

Definition render (d : date) (x : Directive) : list ascii :=
  match x with
  | pY => year_digits (year d)
  | pm => pad2 (month d)
  | pd => pad2 (day d)
  | pb => capitalize (nth (N.to_nat (month d) - 1) a_month "")
  | lit c => [c]
  end.

(** [d.strftime(fmt)] *)
Definition strftime (d : date) (fmt : Format) : string :=
  str (flat_map (render d) fmt).

(** [a < b] on dates *)
Definition before (a b : date) : Prop :=
  (year a < year b
   \/ (year a = year b /\ (month a < month b
                           \/ (month a = month b /\ day a < day b))))%N.

(** A match with what follows it put in lower case. *)
Definition lowered {V} (a : V * list ascii) : V * list ascii :=
  (fst a, map lower (snd a)).

End Datetime.

(** ** RxNorm *)

Module RxNormData.
Import Datetime.

Definition _src_name : string := "rxnorm".
Definition _filetype : string := "RRF".

Definition version_url : string := "https://rxnav.nlm.nih.gov/REST/version.json".

(** ["%d-%b-%Y"] *)
Definition remote_format : Format := [pd; lit "-"%char; pb; lit "-"%char; pY].

(** [strptime(x, fmt)] on a decoded JSON value: only a [str] is accepted. *)
Definition strptime_value (x : Json) (fmt : Format) : Result date :=
  match x with
  | JStr s => strptime s fmt
  | _ => Raise TypeError
  end.

Section Class.
(** Modelled from the spec: [DATE_VERSION_PATTERN] of the versioning
    module, which is not among the sources.  The spec's fixed canonical
    format of a date: year, month and day, each of fixed width, with a
    separator [date_sep] that the spec leaves open (none in [%Y%m%d],
    a dash in [%Y-%m-%d]). *)
Variable date_sep : string.

Definition DATE_VERSION_PATTERN : Format :=
  [pY] ++ literal date_sep ++ [pm] ++ literal date_sep ++ [pd].

Definition _get_latest_version : M string :=
  r <- requests_get version_url;;
  raise_for_status r;;
  try_except
    (j <- lift (response_json r);;
     raw_version <- lift (getitem_str j "version");;
     parsed <- lift (strptime_value raw_version remote_format);;
     ret (strftime parsed DATE_VERSION_PATTERN))
    (fun e => is_ValueError e || is_KeyError e)
    (raise RemoteDataError).

Definition _zip_handler (dl_path outfile_path : Path) : M unit :=
  fun w =>
    match read_file dl_path w with
    | None => (Raise FileNotFoundError, w)
    | Some c =>
        match zip c with
        | None => (Raise BadZipFile, w)
        | Some filelist =>
            match find (fun file => String.eqb (fst file) "rrf/RXNCONSO.RRF")
                       filelist with
            | Some target =>
                os_remove dl_path (write_file outfile_path (snd target) w)
            | None => (Raise RemoteDataError, w)
            end
        end
    end.

Definition _download_data (version : string) (file_path : Path) : M unit :=
  fun w =>
    match environ w "UMLS_API_KEY" with
    | None =>
        (logger ERROR "Could not find `UMLS_API_KEY` in environment variables.";;
         raise RemoteDataError) w
    | Some api_key =>
        (parsed <- lift (strptime version DATE_VERSION_PATTERN);;
         let fmt_version := strftime parsed [pm; pd; pY] in
         let dl_url :=
           String.append "https://download.nlm.nih.gov/umls/kss/rxnorm/RxNorm_full_"
             (String.append fmt_version ".zip") in
         let url :=
           String.append "https://uts-ws.nlm.nih.gov/download?url="
             (String.append dl_url (String.append "&apiKey=" api_key)) in
         download_http url file_path (Some _zip_handler)) w
    end.

(** [get_latest] is inherited from the base class. *)
Definition get_latest : bool -> bool -> M (Path * string) :=
  BaseSource.get_latest _src_name _filetype _get_latest_version _download_data.
End Class.

End RxNormData.

(** ** Worlds and responses used as examples *)

Module Examples.

Definition plain (t : string) : Content := mkContent t None None.
Definition json_doc (j : Json) : Content := mkContent "" (Some j) None.
Definition archive (members : list (string * Content)) : Content :=
  mkContent "" None (Some members).

Definition offline : string -> HttpReply := fun _ => NoReply.
Definition no_env : string -> option string := fun _ => None.

(** A world with the given files and remote, nothing else. *)
Definition world (files : list (string * Content)) (net : string -> HttpReply)
  : World := mkWorld files None no_env net [] [].

Definition serve (url : string) (c : Content) (net : string -> HttpReply)
  : string -> HttpReply :=
  fun u => if String.eqb u url then Reply 200 c else net u.

(** [str] on the strings, numbers and constants of JSON. *)
Definition py_str (x : Json) : string :=
  match x with
  | JStr s => s
  | JNull => "None"
  | JBool true => "True"
  | JBool false => "False"
  | _ => "?"
  end.

Definition no_handler : Path -> Path -> M unit := fun _ _ => ret tt.

Definition drugbank_release (version : string) : Content :=
  json_doc (JArr [JObj [("version", JStr version);
                        ("url", JStr "https://go.drugbank.com/releases/5-1-10")]]).

Definition gtop_homepage (version : string) : Content :=
  plain (String.append "<html>"
          (String (ascii_of_nat 10)
            (String.append "  <p>Current Release Version "
              (String.append version " (2023-08-01)</p>")))).

(** DrugBank announces 5.1.10 and the file of that version is cached. *)
Definition drugbank_cached : World :=
  world [("drugbank_5.1.10.csv", plain "drugbank-id,name")]
        (serve DrugBankData.releases_url (drugbank_release "5.1.10") offline).

(** Guide to Pharmacology announces 2023.2 and both files are cached. *)
Definition gtop_cached : World :=
  world [("gtop_ligands_2023.2.tsv", plain "ligands");
         ("gtop_ligand_id_mapping_2023.2.tsv", plain "mapping")]
        (serve GToPLigandData.homepage (gtop_homepage "2023.2") offline).

(** The releases document of DrugBank is an empty list. *)
Definition drugbank_no_release : World :=
  world [("drugbank_5.1.9.csv", plain "drugbank-id,name")]
        (serve DrugBankData.releases_url (json_doc (JArr [])) offline).

(** The latest release of DrugBank has no ["version"] key. *)
Definition drugbank_no_version_key : World :=
  world [("drugbank_5.1.9.csv", plain "drugbank-id,name")]
        (serve DrugBankData.releases_url
           (json_doc (JArr [JObj [("url", JStr "https://go.drugbank.com/releases/latest")]]))
           offline).

(** The home page of Guide to Pharmacology names no release. *)
Definition gtop_no_release : World :=
  world [("gtop_ligands_2023.1.tsv", plain "ligands");
         ("gtop_ligand_id_mapping_2023.1.tsv", plain "mapping")]
        (serve GToPLigandData.homepage
           (plain "<p>Current Release Version unknown</p>") offline).

(** Guide to Pharmacology announces 2023.2; of the two files of that
    version only the ligands file is cached; both can be downloaded. *)
Definition gtop_partial : World :=
  world [("gtop_ligands_2023.2.tsv", plain "stale ligands")]
        (serve GToPLigandData.homepage (gtop_homepage "2023.2")
           (serve GToPLigandData.ligands_url (plain "fresh ligands")
              (serve GToPLigandData.ligand_id_mapping_url (plain "fresh mapping")
                 offline))).

(** A data directory holding empty files of the given names. *)
Definition cache (names : list string) : World :=
  world (map (fun n => (n, plain "")) names) offline.

(** The orders in which a directory can list three DrugBank files. *)
Definition three_versions : list (list string) :=
  let a := "drugbank_1.0.csv" in
  let b := "drugbank_2.3.csv" in
  let c := "drugbank_2.10.csv" in
  [[a; b; c]; [a; c; b]; [b; a; c]; [b; c; a]; [c; a; b]; [c; b; a]].

(** The newest ligands file is of version 2023.2, the newest mapping
    file of version 2023.1. *)
Definition gtop_mixed : World :=
  cache ["gtop_ligands_2023.1.tsv"; "gtop_ligand_id_mapping_2023.1.tsv";
         "gtop_ligands_2023.2.tsv"].

(** RxNorm announces the release of 4 March 2024; no API key is set. *)
Definition rxnorm_no_key : World :=
  world []
        (serve RxNormData.version_url
           (json_doc (JObj [("version", JStr "04-Mar-2024")])) offline).

(** The temporary file is an archive without [rrf/RXNCONSO.RRF]. *)
Definition rxnorm_bad_archive : World :=
  mkWorld [] (Some (archive [("Readme.txt", plain "RxNorm")])) no_env offline [] [].

(** RxNorm announces a day that does not exist. *)
Definition rxnorm_malformed : World :=
  world []
        (serve RxNormData.version_url
           (json_doc (JObj [("version", JStr "31-Feb-2024")])) offline).

(** A home page with three lines holding the phrase; the first gives
    no release number. *)
Definition two_release_lines : string :=
  String.append "<p>Current Release Version pending</p>"
    (String (ascii_of_nat 10)
       (String.append "<p>Current Release Version 2024.1 (new)</p>"
          (String (ascii_of_nat 10)
             "<p>Current Release Version 2023.3 (old)</p>"))).

Definition gtop_two_lines : World :=
  world [] (serve GToPLigandData.homepage (plain two_release_lines) offline).

(** Two DrugBank files whose versions are the same numbers. *)
Definition equal_versions : list string :=
  ["drugbank_5.1.csv"; "drugbank_5.01.csv"].

(** A DrugBank file whose version has an empty component. *)
Definition empty_component : list string :=
  ["drugbank_5.1.10.csv"; "drugbank_5..2.csv"].


(** The API key is set. *)
Definition rxnorm_with_key : World :=
  mkWorld [] None
    (fun k => if String.eqb k "UMLS_API_KEY" then Some "secret" else None)
    offline [] [].

(** Guide to Pharmacology announces 2023.2; the ligands file can be
    downloaded, the mapping file cannot. *)
Definition gtop_half_served : World :=
  world []
        (serve GToPLigandData.homepage (gtop_homepage "2023.2")
           (serve GToPLigandData.ligands_url (plain "fresh ligands") offline)).

(** DrugBank announces 5.1.10 and nothing is cached. *)
Definition drugbank_uncached : World :=
  world [] (serve DrugBankData.releases_url (drugbank_release "5.1.10") offline).

(** RxNorm announces the release of 4 March 2024 with the month in upper
    case and the day without a leading zero. *)
Definition rxnorm_upper_case : World :=
  world []
        (serve RxNormData.version_url
           (json_doc (JObj [("version", JStr "04-MAR-2024")])) offline).

Definition rxnorm_short_day : World :=
  world []
        (serve RxNormData.version_url
           (json_doc (JObj [("version", JStr "4-Mar-2024")])) offline).

(** RxNorm announces a date of the year 999, and one of the year 1. *)
Definition rxnorm_year_999 : World :=
  world []
        (serve RxNormData.version_url
           (json_doc (JObj [("version", JStr "04-Mar-0999")])) offline).

Definition rxnorm_year_1 : World :=
  world []
        (serve RxNormData.version_url
           (json_doc (JObj [("version", JStr "01-Jan-0001")])) offline).

End Examples.

(** * Properties *)

(** ** Effects of the helpers *)

Create HintDb py discriminated.
#[local] Hint Unfold bind ret raise lift logger emit try_except
  requests_get raise_for_status : py.

Ltac run := repeat progress (autounfold with py in *; simpl in *).

Lemma drugbank_version_world (w : World) :
  snd (DrugBankData._get_latest_version w)
  = add_event (EvGet DrugBankData.releases_url) w.
Proof.
  unfold DrugBankData._get_latest_version. run.
  destruct (remote w DrugBankData.releases_url) as [|st c]; [reflexivity|].
  simpl. destruct (is_error_status st); [reflexivity|].
  simpl. destruct (response_json _) as [j|e]; simpl.
  - destruct (getitem_int j 0) as [latest|e]; simpl.
    + destruct (getitem_str latest "version") as [v|e]; simpl.
      * destruct (getitem_str latest "url") as [u|e]; simpl; [reflexivity|].
        destruct (is_KeyError e || is_IndexError e); reflexivity.
      * destruct (is_KeyError e || is_IndexError e); reflexivity.
    + destruct (is_KeyError e || is_IndexError e); reflexivity.
  - destruct (is_KeyError e || is_IndexError e); reflexivity.
Qed.

Lemma gtop_version_world (w : World) :
  snd (GToPLigandData._get_latest_version w)
  = add_event (EvGet GToPLigandData.homepage) w.
Proof.
  unfold GToPLigandData._get_latest_version. run.
  destruct (remote w GToPLigandData.homepage) as [|st c]; [reflexivity|].
  simpl. destruct (is_error_status st); reflexivity.
Qed.

Lemma pair_eta {A B} (p : A * B) : p = (fst p, snd p).
Proof. destruct p; reflexivity. Qed.

(** ** Conflicting flags *)

(** C3: [get_latest(from_local=True, force_refresh=True)] raises
    [ValueError] in every world and leaves the world as it was: no scan of
    the data directory, no request, no log record.  This holds for
    DrugBank, for Guide to Pharmacology and for every source that takes
    [get_latest] from the base class. *)
Theorem both_flags_value_error :
  (forall py_str handle_zip (w : World),
      DrugBankData.get_latest py_str handle_zip true true w = (Raise ValueError, w))
  /\ (forall (base : DataSource) (w : World),
         GToPLigandData.get_latest base true true w = (Raise ValueError, w))
  /\ (forall src_name filetype latest_version download_data (w : World),
         BaseSource.get_latest src_name filetype latest_version download_data
                               true true w
         = (Raise ValueError, w)).
Proof. repeat split. Qed.

(** ** A cached file of the latest version *)

Lemma drugbank_get_latest_remote py_str handle_zip (force_refresh : bool) (w : World) :
  DrugBankData.get_latest py_str handle_zip false force_refresh w
  = match fst (DrugBankData._get_latest_version w) with
    | Ok latest =>
        let w1 := add_event (EvGet DrugBankData.releases_url) w in
        let latest_file :=
          DataFile (String.append "drugbank_"
                      (String.append (py_str (fst latest)) ".csv")) in
        if negb force_refresh && exists_ latest_file w then
          (Ok (latest_file, fst latest),
           add_log DEBUG
             "Found existing file, {latest_file.name}, matching latest version {latest_version}."
             w1)
        else
          (DrugBankData._download_data handle_zip
             (String.append (py_str (snd latest)) "/downloads/all-drugbank-vocabulary")
             latest_file;;
           ret (latest_file, fst latest)) w1
    | Raise e => (Raise e, add_event (EvGet DrugBankData.releases_url) w)
    end.
Proof.
  unfold DrugBankData.get_latest.
  rewrite andb_false_r.
  unfold bind at 1.
  rewrite (pair_eta (DrugBankData._get_latest_version w)), drugbank_version_world.
  simpl fst; simpl snd.
  destruct (fst (DrugBankData._get_latest_version w)) as [latest|e]; [|reflexivity].
  cbv zeta.
  change (exists_ ?p (add_event ?e w)) with (exists_ p w).
  destruct (negb force_refresh && exists_ _ w); reflexivity.
Qed.

Lemma gtop_get_latest_remote (base : DataSource) (force_refresh : bool) (w : World) :
  GToPLigandData.get_latest base false force_refresh w
  = match fst (GToPLigandData._get_latest_version w) with
    | Ok latest_version =>
        let w1 := add_event (EvGet GToPLigandData.homepage) w in
        let ligands_path := DataFile (GToPLigandData.ligands_name latest_version) in
        let ligand_id_mapping_path :=
          DataFile (GToPLigandData.ligand_id_mapping_name latest_version) in
        let file_paths :=
          GToPLigandData.mkGtoPLigandPaths ligands_path ligand_id_mapping_path in
        let download :=
          GToPLigandData._download_files base file_paths;;
          ret (file_paths, latest_version) in
        if force_refresh then download w1
        else if exists_ ligands_path w && exists_ ligand_id_mapping_path w then
          (Ok (file_paths, latest_version),
           add_log DEBUG
             "Found existing files, {file_paths}, matching latest version {latest_version}."
             w1)
        else if exists_ ligands_path w || exists_ ligand_id_mapping_path w then
          download
            (add_log WARNING
               "Existing files, {file_paths}, not all available -- attempting full download."
               w1)
        else download w1
    | Raise e => (Raise e, add_event (EvGet GToPLigandData.homepage) w)
    end.
Proof.
  unfold GToPLigandData.get_latest.
  rewrite andb_false_r.
  unfold bind at 1.
  rewrite (pair_eta (GToPLigandData._get_latest_version w)), gtop_version_world.
  simpl fst; simpl snd.
  destruct (fst (GToPLigandData._get_latest_version w)) as [v|e]; [|reflexivity].
  cbv zeta.
  change (exists_ ?p (add_event ?e w)) with (exists_ p w).
  destruct force_refresh; [reflexivity|].
  simpl negb. cbv iota.
  destruct (exists_ _ w && exists_ _ w); [reflexivity|].
  destruct (exists_ _ w || exists_ _ w); reflexivity.
Qed.

(** C2: with both flags off, when the file named after the version that
    the remote announces is in the data directory (for Guide to
    Pharmacology: when both files of the group are), [get_latest] returns
    that path (those paths) with that version.  The world it leaves differs
    from the initial one by the request for the version and one debug
    record: no download was started and no file was written. *)
Theorem cached_latest_is_returned :
  (forall py_str handle_zip (w : World) (version url : Json),
      fst (DrugBankData._get_latest_version w) = Ok (version, url) ->
      let latest_file :=
        DataFile (String.append "drugbank_" (String.append (py_str version) ".csv")) in
      exists_ latest_file w = true ->
      DrugBankData.get_latest py_str handle_zip false false w
      = (Ok (latest_file, version),
         add_log DEBUG
           "Found existing file, {latest_file.name}, matching latest version {latest_version}."
           (add_event (EvGet DrugBankData.releases_url) w)))
  /\ (forall (base : DataSource) (w : World) (version : string),
         fst (GToPLigandData._get_latest_version w) = Ok version ->
         let ligands_path := DataFile (GToPLigandData.ligands_name version) in
         let ligand_id_mapping_path :=
           DataFile (GToPLigandData.ligand_id_mapping_name version) in
         exists_ ligands_path w = true ->
         exists_ ligand_id_mapping_path w = true ->
         GToPLigandData.get_latest base false false w
         = (Ok (GToPLigandData.mkGtoPLigandPaths ligands_path ligand_id_mapping_path,
                version),
            add_log DEBUG
              "Found existing files, {file_paths}, matching latest version {latest_version}."
              (add_event (EvGet GToPLigandData.homepage) w))).
Proof.
  split.
  - intros py_str handle_zip w version url Hv latest_file Hex.
    rewrite drugbank_get_latest_remote, Hv. cbv zeta. simpl fst.
    fold latest_file. rewrite Hex. reflexivity.
  - intros base w version Hv ligands_path ligand_id_mapping_path H1 H2.
    rewrite gtop_get_latest_remote, Hv. cbv zeta.
    fold ligands_path ligand_id_mapping_path. rewrite H1, H2. reflexivity.
Qed.

Lemma cached_latest_is_returned_witness :
  (fst (DrugBankData._get_latest_version Examples.drugbank_cached)
   = Ok (JStr "5.1.10", JStr "https://go.drugbank.com/releases/5-1-10")
   /\ exists_ (DataFile "drugbank_5.1.10.csv") Examples.drugbank_cached = true
   /\ fst (DrugBankData.get_latest Examples.py_str Examples.no_handler false false
             Examples.drugbank_cached)
      = Ok (DataFile "drugbank_5.1.10.csv", JStr "5.1.10"))
  /\ (fst (GToPLigandData._get_latest_version Examples.gtop_cached) = Ok "2023.2"
      /\ fst (GToPLigandData.get_latest BaseSource.data_source false false
                Examples.gtop_cached)
         = Ok (GToPLigandData.mkGtoPLigandPaths
                 (DataFile "gtop_ligands_2023.2.tsv")
                 (DataFile "gtop_ligand_id_mapping_2023.2.tsv"), "2023.2")).
Proof.
  split.
  - split; [reflexivity|]. split; [reflexivity|].
    rewrite (proj1 cached_latest_is_returned Examples.py_str Examples.no_handler
               Examples.drugbank_cached (JStr "5.1.10")
               (JStr "https://go.drugbank.com/releases/5-1-10"));
      reflexivity.
  - split; [vm_compute; reflexivity|].
    rewrite (proj2 cached_latest_is_returned BaseSource.data_source
               Examples.gtop_cached "2023.2");
      vm_compute; reflexivity.
Defined.

(** ** A response without a version *)

Lemma find_release_unmatched (r_text : list (list ascii)) :
  (forall line, In line r_text ->
                contains (chars "Current Release Version") line = true ->
                re_findall GToPLigandData.release_re (strip line) = []) ->
  GToPLigandData.find_release r_text = Raise RemoteDataError.
Proof.
  induction r_text as [|line r_text IH]; intros H; [reflexivity|].
  cbn [GToPLigandData.find_release].
  destruct (contains _ line) eqn:Hc.
  - rewrite (H line (or_introl eq_refl) Hc).
    apply IH. intros l Hl. apply H. right; exact Hl.
  - apply IH. intros l Hl. apply H. right; exact Hl.
Qed.

Lemma drugbank_version_unparsable (w : World) (st : nat) (c : Content) :
  remote w DrugBankData.releases_url = Reply st c ->
  is_error_status st = false ->
  (json c = Some (JArr [])
   \/ exists fields others,
       json c = Some (JArr (JObj fields :: others))
       /\ (lookup "version" fields = None \/ lookup "url" fields = None)) ->
  fst (DrugBankData._get_latest_version w) = Raise RemoteDataError.
Proof.
  intros Hr Hst Hj.
  unfold DrugBankData._get_latest_version. run. rewrite Hr. simpl. rewrite Hst. simpl.
  unfold response_json. simpl.
  destruct Hj as [Hj | (fields & others & Hj & Hk)]; rewrite Hj;
    cbn [getitem_int getitem_str nth_error].
  - reflexivity.
  - destruct Hk as [Hk|Hk].
    + rewrite Hk. reflexivity.
    + destruct (lookup "version" fields); rewrite ?Hk; reflexivity.
Qed.

Lemma gtop_version_unparsable (w : World) (st : nat) (c : Content) :
  remote w GToPLigandData.homepage = Reply st c ->
  is_error_status st = false ->
  (forall line, In line (split_on newline (chars (text c))) ->
                contains (chars "Current Release Version") line = true ->
                re_findall GToPLigandData.release_re (strip line) = []) ->
  fst (GToPLigandData._get_latest_version w) = Raise RemoteDataError.
Proof.
  intros Hr Hst Hl.
  unfold GToPLigandData._get_latest_version. run. rewrite Hr. simpl. rewrite Hst. simpl.
  apply find_release_unmatched. exact Hl.
Qed.

(** C6: when the response of the remote gives no version -- for DrugBank a
    releases document that is an empty list or whose first release lacks
    the ["version"] or the ["url"] key, for Guide to Pharmacology a home
    page none of whose lines matches the release pattern -- [get_latest]
    without [from_local] raises [RemoteDataError], whatever [force_refresh]
    is and whatever the data directory holds.  The world it leaves differs
    from the initial one by the request for the version only: no download
    was started and no cached file was returned in place of the answer.
    More generally, whatever the strategy raises is what [get_latest]
    raises, with the same world. *)
Theorem unparsable_version_is_remote_data_error :
  (forall py_str handle_zip (w : World) (st : nat) (c : Content)
          (force_refresh : bool),
      remote w DrugBankData.releases_url = Reply st c ->
      is_error_status st = false ->
      (json c = Some (JArr [])
       \/ exists fields others,
           json c = Some (JArr (JObj fields :: others))
           /\ (lookup "version" fields = None \/ lookup "url" fields = None)) ->
      DrugBankData.get_latest py_str handle_zip false force_refresh w
      = (Raise RemoteDataError, add_event (EvGet DrugBankData.releases_url) w))
  /\ (forall (base : DataSource) (w : World) (st : nat) (c : Content)
             (force_refresh : bool),
         remote w GToPLigandData.homepage = Reply st c ->
         is_error_status st = false ->
         (forall line, In line (split_on newline (chars (text c))) ->
                       contains (chars "Current Release Version") line = true ->
                       re_findall GToPLigandData.release_re (strip line) = []) ->
         GToPLigandData.get_latest base false force_refresh w
         = (Raise RemoteDataError, add_event (EvGet GToPLigandData.homepage) w))
  /\ (forall py_str handle_zip (base : DataSource) (w : World) (e : PyExc)
             (force_refresh : bool),
         (fst (DrugBankData._get_latest_version w) = Raise e ->
          DrugBankData.get_latest py_str handle_zip false force_refresh w
          = (Raise e, add_event (EvGet DrugBankData.releases_url) w))
         /\ (fst (GToPLigandData._get_latest_version w) = Raise e ->
             GToPLigandData.get_latest base false force_refresh w
             = (Raise e, add_event (EvGet GToPLigandData.homepage) w))).
Proof.
  split; [|split].
  - intros py_str handle_zip w st c force_refresh Hr Hst Hj.
    rewrite drugbank_get_latest_remote,
      (drugbank_version_unparsable w st c Hr Hst Hj).
    reflexivity.
  - intros base w st c force_refresh Hr Hst Hl.
    rewrite gtop_get_latest_remote, (gtop_version_unparsable w st c Hr Hst Hl).
    reflexivity.
  - intros py_str handle_zip base w e force_refresh. split; intros He.
    + rewrite drugbank_get_latest_remote, He. reflexivity.
    + rewrite gtop_get_latest_remote, He. reflexivity.
Qed.

Lemma unparsable_version_is_remote_data_error_witness :
  (forall force_refresh,
      DrugBankData.get_latest Examples.py_str Examples.no_handler false force_refresh
        Examples.drugbank_no_release
      = (Raise RemoteDataError,
         add_event (EvGet DrugBankData.releases_url) Examples.drugbank_no_release))
  /\ (forall force_refresh,
         DrugBankData.get_latest Examples.py_str Examples.no_handler false force_refresh
           Examples.drugbank_no_version_key
         = (Raise RemoteDataError,
            add_event (EvGet DrugBankData.releases_url)
                      Examples.drugbank_no_version_key))
  /\ (forall force_refresh,
         GToPLigandData.get_latest BaseSource.data_source false force_refresh
           Examples.gtop_no_release
         = (Raise RemoteDataError,
            add_event (EvGet GToPLigandData.homepage) Examples.gtop_no_release)).
Proof.
  split; [|split]; intros force_refresh.
  - apply (proj1 unparsable_version_is_remote_data_error Examples.py_str
             Examples.no_handler Examples.drugbank_no_release 200
             (Examples.json_doc (JArr [])) force_refresh);
      [reflexivity | reflexivity | left; reflexivity].
  - apply (proj1 unparsable_version_is_remote_data_error Examples.py_str
             Examples.no_handler Examples.drugbank_no_version_key 200
             (Examples.json_doc
                (JArr [JObj [("url", JStr "https://go.drugbank.com/releases/latest")]]))
             force_refresh);
      [reflexivity | reflexivity |].
    right. eexists. eexists. split; [reflexivity|]. left; reflexivity.
  - apply (proj1 (proj2 unparsable_version_is_remote_data_error) BaseSource.data_source
             Examples.gtop_no_release 200
             (Examples.plain "<p>Current Release Version unknown</p>") force_refresh);
      [reflexivity | reflexivity |].
    intros line [<-|[]] _. vm_compute. reflexivity.
Defined.

(** ** A group of which one file is missing *)

Lemma lookup_store_eq {A} (k : string) (v : A) (l : list (string * A)) :
  lookup k (store k v l) = Some v.
Proof.
  induction l as [|[k' v'] l IH]; simpl.
  - rewrite String.eqb_refl. reflexivity.
  - destruct (String.eqb k k') eqn:E; simpl; rewrite E; [reflexivity | exact IH].
Qed.

Lemma lookup_store_neq {A} (k k' : string) (v : A) (l : list (string * A)) :
  String.eqb k k' = false ->
  lookup k (store k' v l) = lookup k l.
Proof.
  intros Hk. induction l as [|[k0 v0] l IH]; simpl.
  - rewrite Hk. reflexivity.
  - destruct (String.eqb k' k0) eqn:E; simpl.
    + apply String.eqb_eq in E. subst k0. rewrite Hk. reflexivity.
    + rewrite IH. reflexivity.
Qed.

Lemma download_plain (url : string) (outfile : Path) (w : World) :
  download_http url outfile None w
  = let w1 := add_event (EvDownload url outfile) w in
    match remote w url with
    | NoReply => (Raise NetworkError, w1)
    | Reply st c =>
        if is_success_status st
        then (Ok tt, delete_file TempFile (write_file outfile c (write_file TempFile c w1)))
        else (Raise NetworkError, w1)
    end.
Proof.
  unfold download_http. run.
  destruct (remote w url) as [|st c]; [reflexivity|].
  destruct (is_success_status st); reflexivity.
Qed.

(** C1: with both flags off, when exactly one of the two files named after
    the version that the remote announces is in the data directory,
    [get_latest] logs one warning and runs the download of the whole group
    from there, as it does when neither file is present.  With the
    downloader of the spec: the log gains that warning and nothing else,
    the download of the ligands file is requested whichever file was
    present, a result is returned only after both downloads were
    requested, and when both succeed both files hold what was received. *)
Theorem partial_group_is_refetched :
  forall (w : World) (version : string),
    fst (GToPLigandData._get_latest_version w) = Ok version ->
    let ligands_path := DataFile (GToPLigandData.ligands_name version) in
    let ligand_id_mapping_path :=
      DataFile (GToPLigandData.ligand_id_mapping_name version) in
    let file_paths :=
      GToPLigandData.mkGtoPLigandPaths ligands_path ligand_id_mapping_path in
    xorb (exists_ ligands_path w) (exists_ ligand_id_mapping_path w) = true ->
    let warning :=
      (WARNING,
       "Existing files, {file_paths}, not all available -- attempting full download.") in
    let requests :=
      [EvGet GToPLigandData.homepage;
       EvDownload GToPLigandData.ligands_url ligands_path;
       EvDownload GToPLigandData.ligand_id_mapping_url ligand_id_mapping_path] in
    (forall base : DataSource,
        GToPLigandData.get_latest base false false w
        = (GToPLigandData._download_files base file_paths;;
           ret (file_paths, version))
            (add_log (fst warning) (snd warning)
               (add_event (EvGet GToPLigandData.homepage) w)))
    /\ (let out := GToPLigandData.get_latest BaseSource.data_source false false w in
        log (snd out) = log w ++ [warning]
        /\ (exists rest,
               trace (snd out)
               = trace w ++ EvGet GToPLigandData.homepage
                   :: EvDownload GToPLigandData.ligands_url ligands_path :: rest)
        /\ (forall r, fst out = Ok r ->
                      r = (file_paths, version)
                      /\ trace (snd out) = trace w ++ requests)
        /\ (forall st1 c1 st2 c2,
               remote w GToPLigandData.ligands_url = Reply st1 c1 ->
               is_success_status st1 = true ->
               remote w GToPLigandData.ligand_id_mapping_url = Reply st2 c2 ->
               is_success_status st2 = true ->
               fst out = Ok (file_paths, version)
               /\ read_file ligands_path (snd out) = Some c1
               /\ read_file ligand_id_mapping_path (snd out) = Some c2)).
Proof.
  intros w version Hv ligands_path ligand_id_mapping_path file_paths Hx
         warning requests.
  assert (Hall : forall base : DataSource,
             GToPLigandData.get_latest base false false w
             = (GToPLigandData._download_files base file_paths;;
                ret (file_paths, version))
                 (add_log (fst warning) (snd warning)
                    (add_event (EvGet GToPLigandData.homepage) w))).
  { intros base. rewrite gtop_get_latest_remote, Hv. cbv zeta.
    fold ligands_path ligand_id_mapping_path file_paths.
    destruct (exists_ ligands_path w), (exists_ ligand_id_mapping_path w);
      try discriminate Hx; reflexivity. }
  split; [exact Hall|].
  cbv zeta. rewrite (Hall BaseSource.data_source).
  clear Hall Hx. subst ligands_path ligand_id_mapping_path file_paths warning requests.
  unfold GToPLigandData._download_files, bind, ret.
  cbn [_http_download BaseSource.data_source GToPLigandData.ligands
       GToPLigandData.ligand_id_mapping].
  rewrite download_plain. cbv zeta.
  cbn [remote add_log add_event fst snd].
  destruct (remote w GToPLigandData.ligands_url) as [|st1 c1] eqn:R1;
    [|destruct (is_success_status st1) eqn:S1];
    [ | rewrite download_plain; cbv zeta;
        cbn;
        destruct (remote w GToPLigandData.ligand_id_mapping_url) as [|st2 c2] eqn:R2;
        [|destruct (is_success_status st2) eqn:S2] | ];
    cbn; repeat match goal with |- _ /\ _ => split end;
    try reflexivity;
    try (eexists; rewrite <- ?app_assoc; reflexivity);
    try (intros; congruence);
    try (rewrite <- ?app_assoc; reflexivity).
  - intros r E. inversion E. split; [reflexivity|].
    rewrite <- !app_assoc. reflexivity.
  - intros ? ? ? ? E1 _ E2 _. inversion E1; inversion E2; subst.
    split; [reflexivity|]. split.
    + rewrite lookup_store_neq by reflexivity. apply lookup_store_eq.
    + apply lookup_store_eq.
Qed.

Lemma partial_group_is_refetched_witness :
  fst (GToPLigandData._get_latest_version Examples.gtop_partial) = Ok "2023.2"
  /\ xorb (exists_ (DataFile "gtop_ligands_2023.2.tsv") Examples.gtop_partial)
          (exists_ (DataFile "gtop_ligand_id_mapping_2023.2.tsv") Examples.gtop_partial)
     = true
  /\ (let out := GToPLigandData.get_latest BaseSource.data_source false false
                   Examples.gtop_partial in
      fst out
      = Ok (GToPLigandData.mkGtoPLigandPaths
              (DataFile "gtop_ligands_2023.2.tsv")
              (DataFile "gtop_ligand_id_mapping_2023.2.tsv"), "2023.2")
      /\ read_file (DataFile "gtop_ligands_2023.2.tsv") (snd out)
         = Some (Examples.plain "fresh ligands")
      /\ read_file (DataFile "gtop_ligand_id_mapping_2023.2.tsv") (snd out)
         = Some (Examples.plain "fresh mapping")).
Proof.
  assert (Hv : fst (GToPLigandData._get_latest_version Examples.gtop_partial)
               = Ok "2023.2") by (vm_compute; reflexivity).
  split; [exact Hv|]. split; [reflexivity|].
  destruct (partial_group_is_refetched Examples.gtop_partial "2023.2" Hv eq_refl)
    as [_ (_ & _ & _ & H)].
  exact (H 200 (Examples.plain "fresh ligands") 200 (Examples.plain "fresh mapping")
           eq_refl eq_refl eq_refl eq_refl).
Defined.

(** ** The latest local file *)

Lemma last_default {A} (l : list A) (a x z : A) :
  last (a :: l) x = last (a :: l) z.
Proof.
  revert a. induction l as [|b l IH]; intros a; [reflexivity|].
  change (last (a :: b :: l) x) with (last (b :: l) x).
  change (last (a :: b :: l) z) with (last (b :: l) z).
  apply IH.
Qed.

Lemma last_cons {A} (l : list A) (z x : A) : last (z :: l) x = last l z.
Proof.
  destruct l as [|b l]; [reflexivity|].
  change (last (z :: b :: l) x) with (last (b :: l) x).
  apply last_default.
Qed.

Lemma last_In {A} (l : list A) (x : A) : In (last l x) (x :: l).
Proof.
  revert x. induction l as [|b l IH]; intros x.
  - left; reflexivity.
  - right. rewrite last_cons. apply IH.
Qed.

Section SortedFacts.
Context {A K : Type} (lt : K -> K -> bool) (key : A -> K).
Hypothesis lt_asym : forall a b, lt a b = true -> lt b a = false.
Hypothesis le_trans :
  forall a b c, lt b a = false -> lt c b = false -> lt c a = false.

(** [x] is not above [y]. *)
Let le (x y : A) : Prop := lt (key y) (key x) = false.

Lemma le_refl (x : A) : le x x.
Proof.
  unfold le. destruct (lt (key x) (key x)) eqn:E; [|reflexivity].
  rewrite (lt_asym _ _ E) in E. discriminate.
Qed.

Lemma insert_by_In (x y : A) (l : list A) :
  In y (insert_by lt key x l) <-> y = x \/ In y l.
Proof.
  induction l as [|z l IH]; simpl.
  - intuition.
  - destruct (lt (key z) (key x)); simpl; rewrite ?IH; intuition.
Qed.

Lemma sorted_In (y : A) (l : list A) : In y (sorted lt key l) <-> In y l.
Proof.
  induction l as [|x l IH]; simpl; [reflexivity|].
  rewrite insert_by_In, IH. intuition.
Qed.

Lemma insert_by_ascending (x : A) (l : list A) :
  ascending lt key l -> ascending lt key (insert_by lt key x l).
Proof.
  induction l as [|z l IH]; simpl; intros Hl.
  - split; [intros y []|exact I].
  - destruct Hl as [Hz Hl]. destruct (lt (key z) (key x)) eqn:E; simpl.
    + split; [|exact (IH Hl)].
      intros y Hy. apply insert_by_In in Hy. destruct Hy as [->|Hy].
      * unfold le. apply lt_asym. exact E.
      * apply Hz. exact Hy.
    + split; [|split; assumption].
      intros y [<-|Hy]; [exact E|].
      unfold le. apply le_trans with (b := key z); [exact E | apply Hz; exact Hy].
Qed.

Lemma sorted_ascending (l : list A) : ascending lt key (sorted lt key l).
Proof.
  induction l as [|x l IH]; simpl; [exact I|].
  apply insert_by_ascending. exact IH.
Qed.

Lemma ascending_last (l : list A) (x y : A) :
  ascending lt key (x :: l) -> In y (x :: l) -> le y (last l x).
Proof.
  revert x y. induction l as [|z l IH]; intros x y Hl Hy.
  - destruct Hy as [<-|[]]. apply le_refl.
  - rewrite last_cons.
    destruct Hl as [Hx Hl]. destruct Hy as [<-|Hy].
    + apply Hx. apply last_In.
    + apply IH; assumption.
Qed.

(** The last element of [sorted l] is an element of [l] that no element
    of [l] is above. *)
Lemma sorted_last_max (l : list A) (first : A) (others : list A) :
  sorted lt key l = first :: others ->
  In (last others first) l
  /\ forall y, In y l -> lt (key (last others first)) (key y) = false.
Proof.
  intros E. split.
  - apply sorted_In. rewrite E. apply last_In.
  - intros y Hy. apply (ascending_last others first y).
    + rewrite <- E. apply sorted_ascending.
    + rewrite <- E. apply sorted_In. exact Hy.
Qed.

Lemma sorted_nil (l : list A) : sorted lt key l = [] -> l = [].
Proof.
  destruct l as [|x l]; [reflexivity|]. simpl.
  destruct (sorted lt key l) as [|z s]; simpl; [discriminate|].
  destruct (lt (key z) (key x)); discriminate.
Qed.
End SortedFacts.

Lemma list_lt_asym (a b : list N) : list_lt a b = true -> list_lt b a = false.
Proof.
  revert b. induction a as [|x a IH]; intros [|y b]; simpl; try congruence.
  destruct (N.eqb_spec x y) as [->|Hxy].
  - rewrite N.eqb_refl. apply IH.
  - destruct (N.eqb_spec y x) as [->|_]; [congruence|].
    rewrite !N.ltb_lt, N.ltb_ge. lia.
Qed.

Lemma list_le_trans (a b c : list N) :
  list_lt b a = false -> list_lt c b = false -> list_lt c a = false.
Proof.
  revert b c. induction a as [|x a IH]; intros [|y b] [|z c]; simpl; try congruence.
  destruct (N.eqb y x) eqn:Eyx, (N.eqb z y) eqn:Ezy, (N.eqb z x) eqn:Ezx;
    rewrite ?N.eqb_eq, ?N.eqb_neq in *; rewrite ?N.ltb_ge;
    try apply IH; intros; subst; try tauto; try lia.
Qed.

Lemma drugbank_local_file (g : string) (w : World) :
  DrugBankData._get_latest_local_file g w
  = let w1 := add_log DEBUG "Getting local match against pattern {glob}..." w in
    match DrugBankData.file_version_pairs (glob g w) with
    | Raise e => (Raise e, w1)
    | Ok pairs =>
        match sorted list_lt (fun p => snd p) pairs with
        | [] => (Raise FileNotFoundError, w1)
        | first :: others =>
            let latest := last others first in
            (Ok (fst (fst latest), snd (fst latest)),
             add_log DEBUG
               "Returning {latest[0]} as most recent locally-available file." w1)
        end
    end.
Proof.
  unfold DrugBankData._get_latest_local_file. run.
  change (glob g (add_log ?l ?m w)) with (glob g w).
  destruct (DrugBankData.file_version_pairs (glob g w)) as [pairs|e]; [|reflexivity].
  destruct (sorted _ _ pairs); reflexivity.
Qed.

Lemma file_version_pairs_sound (files : list string) pairs :
  DrugBankData.file_version_pairs files = Ok pairs ->
  forall file version key,
    In (file, version, key) pairs ->
    exists name,
      file = DataFile name /\ In name files
      /\ parse_file_version name DrugBankData.version_re = Ok version
      /\ map_result py_int (split_on "."%char (chars version)) = Ok key.
Proof.
  revert pairs. induction files as [|f files IH]; intros pairs H file version key Hin.
  - inversion H; subst. destruct Hin.
  - cbn [DrugBankData.file_version_pairs] in H.
    destruct (parse_file_version f DrugBankData.version_re) as [v|] eqn:Ev;
      [|discriminate].
    cbn [rbind] in H.
    destruct (map_result py_int (split_on "."%char (chars v))) as [k|] eqn:Ek;
      [|discriminate].
    cbn [rbind] in H.
    destruct (DrugBankData.file_version_pairs files) as [ps|] eqn:Eps;
      [|discriminate].
    cbn [rbind] in H. inversion H; subst. destruct Hin as [Hin|Hin].
    + inversion Hin; subst. exists f. repeat split; try assumption. left; reflexivity.
    + destruct (IH ps eq_refl file version key Hin) as (name & ? & ? & ? & ?).
      exists name. repeat split; try assumption. right; assumption.
Qed.

Lemma file_version_pairs_complete (files : list string) pairs :
  DrugBankData.file_version_pairs files = Ok pairs ->
  forall name version key,
    In name files ->
    parse_file_version name DrugBankData.version_re = Ok version ->
    map_result py_int (split_on "."%char (chars version)) = Ok key ->
    In (DataFile name, version, key) pairs.
Proof.
  revert pairs. induction files as [|f files IH]; intros pairs H name version key Hin Hv Hk.
  - destruct Hin.
  - cbn [DrugBankData.file_version_pairs] in H.
    destruct (parse_file_version f DrugBankData.version_re) as [v|] eqn:Ev;
      [|discriminate].
    cbn [rbind] in H.
    destruct (map_result py_int (split_on "."%char (chars v))) as [k|] eqn:Ek;
      [|discriminate].
    cbn [rbind] in H.
    destruct (DrugBankData.file_version_pairs files) as [ps|] eqn:Eps;
      [|discriminate].
    cbn [rbind] in H. inversion H; subst. destruct Hin as [->|Hin].
    + left. congruence.
    + right. apply (IH ps eq_refl name version key); assumption.
Qed.

(** C5: when every file that the glob lists carries a version of decimal
    numbers separated by dots, [_get_latest_local_file] returns one of
    those files with the version parsed from its name, and no listed file
    has a version that is greater when the two are compared as lists of
    integers.  Whatever order the directory lists the files of versions
    1.0, 2.3 and 2.10 in, the file of version 2.10 is returned (as strings,
    2.3 is the greatest).  When the glob lists no file the call raises
    [FileNotFoundError]. *)
Theorem latest_local_file_is_numeric_maximum :
  (forall (w : World) (g : string) pairs,
      DrugBankData.file_version_pairs (glob g w) = Ok pairs ->
      1 <= length (glob g w) ->
      exists name version key,
        fst (DrugBankData._get_latest_local_file g w) = Ok (DataFile name, version)
        /\ In name (glob g w)
        /\ parse_file_version name DrugBankData.version_re = Ok version
        /\ map_result py_int (split_on "."%char (chars version)) = Ok key
        /\ forall name' version' key',
             In name' (glob g w) ->
             parse_file_version name' DrugBankData.version_re = Ok version' ->
             map_result py_int (split_on "."%char (chars version')) = Ok key' ->
             list_lt key key' = false)
  /\ Forall (fun names =>
               fst (DrugBankData._get_latest_local_file "drugbank_*.csv"
                      (Examples.cache names))
               = Ok (DataFile "drugbank_2.10.csv", "2.10"))
            Examples.three_versions
  /\ String.ltb "2.10" "2.3" = true
  /\ (forall (w : World) (g : string),
         glob g w = [] ->
         fst (DrugBankData._get_latest_local_file g w) = Raise FileNotFoundError).
Proof.
  split; [|split; [|split]].
  - intros w g pairs Hp Hne.
    rewrite drugbank_local_file, Hp. cbv zeta.
    destruct (sorted list_lt (fun p => snd p) pairs) as [|first others] eqn:Es.
    + apply sorted_nil in Es. subst pairs.
      destruct (glob g w) as [|f files]; [simpl in Hne; lia|].
      cbn [DrugBankData.file_version_pairs] in Hp.
      destruct (parse_file_version f _); [|discriminate]. cbn [rbind] in Hp.
      destruct (map_result _ _); [|discriminate]. cbn [rbind] in Hp.
      destruct (DrugBankData.file_version_pairs files); discriminate.
    + destruct (sorted_last_max list_lt (fun p => snd p) list_lt_asym list_le_trans
                  pairs first others Es) as [Hin Hmax].
      destruct (last others first) as [[file version] key] eqn:El.
      destruct (file_version_pairs_sound _ _ Hp file version key Hin)
        as (name & -> & Hname & Hv & Hk).
      exists name, version, key. repeat split; try assumption.
      intros name' version' key' Hin' Hv' Hk'.
      apply (Hmax (DataFile name', version', key')).
      apply (file_version_pairs_complete _ _ Hp); assumption.
  - repeat constructor.
  - reflexivity.
  - intros w g Hg. rewrite drugbank_local_file, Hg. reflexivity.
Qed.

Lemma latest_local_file_is_numeric_maximum_witness :
  glob "drugbank_*.csv"
       (Examples.cache ["drugbank_2.10.csv"; "notes.txt"; "drugbank_2.3.csv"])
  = ["drugbank_2.10.csv"; "drugbank_2.3.csv"]
  /\ (exists name version key,
         fst (DrugBankData._get_latest_local_file "drugbank_*.csv"
                (Examples.cache ["drugbank_2.10.csv"; "notes.txt"; "drugbank_2.3.csv"]))
         = Ok (DataFile name, version)
         /\ map_result py_int (split_on "."%char (chars version)) = Ok key
         /\ list_lt key [2; 3]%N = false)
  /\ fst (DrugBankData._get_latest_local_file "drugbank_*.csv"
            (Examples.cache ["notes.txt"]))
     = Raise FileNotFoundError.
Proof.
  split; [reflexivity|]. split.
  - destruct (proj1 latest_local_file_is_numeric_maximum
                (Examples.cache ["drugbank_2.10.csv"; "notes.txt"; "drugbank_2.3.csv"])
                "drugbank_*.csv"
                [(DataFile "drugbank_2.10.csv", "2.10", [2; 10]%N);
                 (DataFile "drugbank_2.3.csv", "2.3", [2; 3]%N)]
                eq_refl ltac:(simpl; lia))
      as (name & version & key & Hr & _ & _ & Hk & Hmax).
    exists name, version, key. split; [exact Hr|]. split; [exact Hk|].
    apply (Hmax "drugbank_2.3.csv" "2.3").
    + right; left; reflexivity.
    + reflexivity.
    + reflexivity.
  - apply (proj2 (proj2 (proj2 latest_local_file_is_numeric_maximum))).
    reflexivity.
Defined.

(** ** Local files only *)


(** ** The two files of Guide to Pharmacology, from local files *)

(** C9: [GToPLigandData.get_latest(from_local=True)] asks the base class
    for the latest local file of each of the two globs, one after the
    other, and takes the version from the name of the ligands file; the
    name of the mapping file is not looked at.  Whenever the two lookups
    succeed and the name of the ligands file carries a version, the call
    returns the two paths with that version.  In a data directory whose
    newest ligands file is of 2023.2 and whose newest mapping file is of
    2023.1 it returns those two files as version 2023.2. *)
Theorem local_group_takes_version_from_ligands :
  (forall (base : DataSource) (w w1 w2 : World)
          (ligands_path ligand_id_mapping_path : Path) (version : string),
      _get_latest_local_file base "gtop_ligands_*.tsv" w = (Ok ligands_path, w1) ->
      _get_latest_local_file base "gtop_ligand_id_mapping_*.tsv" w1
      = (Ok ligand_id_mapping_path, w2) ->
      parse_file_version (path_name ligands_path) GToPLigandData.ligands_re
      = Ok version ->
      GToPLigandData.get_latest base true false w
      = (Ok (GToPLigandData.mkGtoPLigandPaths ligands_path ligand_id_mapping_path,
             version), w2))
  /\ GToPLigandData.get_latest BaseSource.data_source true false Examples.gtop_mixed
     = (Ok (GToPLigandData.mkGtoPLigandPaths
              (DataFile "gtop_ligands_2023.2.tsv")
              (DataFile "gtop_ligand_id_mapping_2023.1.tsv"), "2023.2"),
        Examples.gtop_mixed).
Proof.
  split.
  - intros base w w1 w2 p1 p2 version H1 H2 Hv.
    unfold GToPLigandData.get_latest. cbn [andb]. unfold bind, lift, ret.
    rewrite H1, H2, Hv. reflexivity.
  - vm_compute. reflexivity.
Qed.

Lemma local_group_takes_version_from_ligands_witness :
  fst (GToPLigandData.get_latest BaseSource.data_source true false Examples.gtop_mixed)
  = Ok (GToPLigandData.mkGtoPLigandPaths
          (DataFile "gtop_ligands_2023.2.tsv")
          (DataFile "gtop_ligand_id_mapping_2023.1.tsv"), "2023.2").
Proof.
  rewrite (proj1 local_group_takes_version_from_ligands BaseSource.data_source
             Examples.gtop_mixed Examples.gtop_mixed Examples.gtop_mixed
             (DataFile "gtop_ligands_2023.2.tsv")
             (DataFile "gtop_ligand_id_mapping_2023.1.tsv") "2023.2");
    vm_compute; reflexivity.
Defined.

(** ** RxNorm *)

Lemma rxnorm_version_world (date_sep : string) (w : World) :
  snd (RxNormData._get_latest_version date_sep w)
  = add_event (EvGet RxNormData.version_url) w.
Proof.
  unfold RxNormData._get_latest_version. run.
  destruct (remote w RxNormData.version_url) as [|st c]; [reflexivity|].
  simpl. destruct (is_error_status st); [reflexivity|].
  simpl. destruct (response_json _) as [j|e]; simpl.
  - destruct (getitem_str j "version") as [raw|e]; simpl.
    + destruct (RxNormData.strptime_value raw _) as [d|e]; simpl; [reflexivity|].
      destruct (is_ValueError e || is_KeyError e); reflexivity.
    + destruct (is_ValueError e || is_KeyError e); reflexivity.
  - destruct (is_ValueError e || is_KeyError e); reflexivity.
Qed.

(** C10: when [UMLS_API_KEY] is not in the environment,
    [RxNormData._download_data] logs an error and raises [RemoteDataError];
    nothing else changes, so no URL was requested.  Hence [get_latest], as
    the spec describes the one of the base class, raises [RemoteDataError]
    whenever it comes to the download: with [from_local] off, once the
    remote has announced a version, if [force_refresh] is on or no file of
    that version is in the data directory.  The only request made is the
    one for the version. *)
Theorem rxnorm_download_needs_api_key :
  forall (date_sep : string) (w : World),
    environ w "UMLS_API_KEY" = None ->
    (forall (version : string) (file_path : Path),
        RxNormData._download_data date_sep version file_path w
        = (Raise RemoteDataError,
           add_log ERROR "Could not find `UMLS_API_KEY` in environment variables." w))
    /\ (forall (force_refresh : bool) (version : string),
           fst (RxNormData._get_latest_version date_sep w) = Ok version ->
           force_refresh = true
           \/ exists_ (DataFile (BaseSource.file_name RxNormData._src_name
                                   RxNormData._filetype version)) w = false ->
           RxNormData.get_latest date_sep false force_refresh w
           = (Raise RemoteDataError,
              add_log ERROR "Could not find `UMLS_API_KEY` in environment variables."
                (add_event (EvGet RxNormData.version_url) w))).
Proof.
  intros date_sep w Henv. split.
  - intros version file_path. unfold RxNormData._download_data. rewrite Henv.
    reflexivity.
  - intros force_refresh version Hv Hdl.
    unfold RxNormData.get_latest, BaseSource.get_latest.
    rewrite andb_false_r. unfold bind at 1.
    rewrite (pair_eta (RxNormData._get_latest_version date_sep w)),
      rxnorm_version_world, Hv.
    change (exists_ ?p (add_event ?e w)) with (exists_ p w).
    assert (Hc : negb force_refresh
                 && exists_ (DataFile (BaseSource.file_name RxNormData._src_name
                                         RxNormData._filetype version)) w = false).
    { destruct Hdl as [->| ->]; [reflexivity | apply andb_false_r]. }
    rewrite Hc. unfold bind, RxNormData._download_data.
    change (environ (add_event ?e w)) with (environ w). rewrite Henv.
    reflexivity.
Qed.

Lemma rxnorm_download_needs_api_key_witness :
  environ Examples.rxnorm_no_key "UMLS_API_KEY" = None
  /\ fst (RxNormData._get_latest_version "" Examples.rxnorm_no_key) = Ok "20240304"
  /\ fst (RxNormData._download_data "" "20240304" (DataFile "rxnorm_20240304.RRF")
            Examples.rxnorm_no_key)
     = Raise RemoteDataError
  /\ fst (RxNormData.get_latest "" false false Examples.rxnorm_no_key)
     = Raise RemoteDataError.
Proof.
  split; [reflexivity|]. split; [vm_compute; reflexivity|]. split.
  - rewrite (proj1 (rxnorm_download_needs_api_key "" Examples.rxnorm_no_key eq_refl)).
    reflexivity.
  - rewrite (proj2 (rxnorm_download_needs_api_key "" Examples.rxnorm_no_key eq_refl)
               false "20240304").
    + reflexivity.
    + vm_compute; reflexivity.
    + right. reflexivity.
Defined.

(** C7: when the archive at [dl_path] has no member [rrf/RXNCONSO.RRF],
    [RxNormData._zip_handler] raises [RemoteDataError] and leaves the world
    as it was: nothing is written at the destination, and the file at
    [dl_path] is not removed -- [os.remove(dl_path)] is reached only once a
    member was extracted.  For a temporary file that holds an archive with
    the single member [Readme.txt], the temporary file is still there after
    the handler has raised. *)
Theorem zip_handler_keeps_archive_without_member :
  (forall (dl_path outfile_path : Path) (w : World) (c : Content)
          (filelist : list (string * Content)),
      read_file dl_path w = Some c ->
      zip c = Some filelist ->
      find (fun file => String.eqb (fst file) "rrf/RXNCONSO.RRF") filelist = None ->
      RxNormData._zip_handler dl_path outfile_path w = (Raise RemoteDataError, w)
      /\ exists_ dl_path w = true)
  /\ (let out := RxNormData._zip_handler TempFile (DataFile "rxnorm_20240304.RRF")
                   Examples.rxnorm_bad_archive in
      fst out = Raise RemoteDataError
      /\ exists_ TempFile (snd out) = true
      /\ exists_ (DataFile "rxnorm_20240304.RRF") (snd out) = false).
Proof.
  split.
  - intros dl_path outfile_path w c filelist Hr Hz Hf.
    unfold RxNormData._zip_handler, exists_. rewrite Hr, Hz, Hf. split; reflexivity.
  - repeat split.
Qed.

Lemma zip_handler_keeps_archive_without_member_witness :
  RxNormData._zip_handler TempFile (DataFile "rxnorm_20240304.RRF")
    Examples.rxnorm_bad_archive
  = (Raise RemoteDataError, Examples.rxnorm_bad_archive)
  /\ exists_ TempFile Examples.rxnorm_bad_archive = true.
Proof.
  apply (proj1 zip_handler_keeps_archive_without_member TempFile
           (DataFile "rxnorm_20240304.RRF") Examples.rxnorm_bad_archive
           (Examples.archive [("Readme.txt", Examples.plain "RxNorm")])
           [("Readme.txt", Examples.plain "RxNorm")]);
    reflexivity.
Defined.

(** ** Dates as versions *)

Ltac Zify.zify_post_hook ::= Z.to_euclidean_division_equations.

Lemma digit_compare (a b : N) :
  (a < 10)%N -> (b < 10)%N ->
  Ascii.compare (Datetime.digit_char a) (Datetime.digit_char b) = N.compare a b.
Proof.
  intros Ha Hb. unfold Ascii.compare, Datetime.digit_char.
  rewrite !N_ascii_embedding by lia.
  destruct (N.compare_spec a b), (N.compare_spec (48 + a) (48 + b));
    try reflexivity; lia.
Qed.

Lemma compare_same_prefix (a x y : list ascii) :
  String.compare (str (a ++ x)) (str (a ++ y)) = String.compare (str x) (str y).
Proof.
  induction a as [|c a IH]; [reflexivity|].
  cbn [app str string_of_list_ascii String.compare].
  assert (Hc : Ascii.compare c c = Eq).
  { unfold Ascii.compare. apply N.compare_refl. }
  rewrite Hc. exact IH.
Qed.

Ltac by_first_digit a b :=
  destruct (N.compare_spec a b) as [?|?|?];
  [ | match goal with
      | |- _ = match ?c with _ => _ end =>
          replace c with Lt by (symmetry; apply N.compare_lt_iff; lia); reflexivity
      end
    | match goal with
      | |- _ = match ?c with _ => _ end =>
          replace c with Gt by (symmetry; apply N.compare_gt_iff; lia); reflexivity
      end ].

Lemma compare_pad4 (y1 y2 : N) (x y : list ascii) :
  (y1 < 10000)%N -> (y2 < 10000)%N ->
  String.compare (str (Datetime.pad4 y1 ++ x)) (str (Datetime.pad4 y2 ++ y))
  = match N.compare y1 y2 with
    | Eq => String.compare (str x) (str y)
    | o => o
    end.
Proof.
  intros H1 H2. unfold Datetime.pad4.
  cbn [app str string_of_list_ascii String.compare].
  assert (D1 : (y1 = 1000 * (y1 / 1000) + 100 * (y1 / 100 mod 10)
                     + 10 * (y1 / 10 mod 10) + y1 mod 10
                /\ y1 / 1000 < 10 /\ y1 / 100 mod 10 < 10
                /\ y1 / 10 mod 10 < 10 /\ y1 mod 10 < 10)%N) by lia.
  assert (D2 : (y2 = 1000 * (y2 / 1000) + 100 * (y2 / 100 mod 10)
                     + 10 * (y2 / 10 mod 10) + y2 mod 10
                /\ y2 / 1000 < 10 /\ y2 / 100 mod 10 < 10
                /\ y2 / 10 mod 10 < 10 /\ y2 mod 10 < 10)%N) by lia.
  generalize dependent (y1 / 1000)%N. generalize dependent (y1 / 100 mod 10)%N.
  generalize dependent (y1 / 10 mod 10)%N. generalize dependent (y1 mod 10)%N.
  generalize dependent (y2 / 1000)%N. generalize dependent (y2 / 100 mod 10)%N.
  generalize dependent (y2 / 10 mod 10)%N. generalize dependent (y2 mod 10)%N.
  intros e2 c2 b2 a2 (E2 & ? & ? & ? & ?) e1 c1 b1 a1 (E1 & ? & ? & ? & ?).
  rewrite !digit_compare by assumption.
  by_first_digit a1 a2. by_first_digit b1 b2. by_first_digit c1 c2.
  by_first_digit e1 e2.
  replace (y1 ?= y2)%N with Eq by (symmetry; apply N.compare_eq_iff; lia).
  reflexivity.
Qed.

Lemma compare_pad2 (m1 m2 : N) (x y : list ascii) :
  (m1 < 100)%N -> (m2 < 100)%N ->
  String.compare (str (Datetime.pad2 m1 ++ x)) (str (Datetime.pad2 m2 ++ y))
  = match N.compare m1 m2 with
    | Eq => String.compare (str x) (str y)
    | o => o
    end.
Proof.
  intros H1 H2. unfold Datetime.pad2.
  cbn [app str string_of_list_ascii String.compare].
  assert (D1 : (m1 = 10 * (m1 / 10) + m1 mod 10
                /\ m1 / 10 < 10 /\ m1 mod 10 < 10)%N) by lia.
  assert (D2 : (m2 = 10 * (m2 / 10) + m2 mod 10
                /\ m2 / 10 < 10 /\ m2 mod 10 < 10)%N) by lia.
  generalize dependent (m1 / 10)%N. generalize dependent (m1 mod 10)%N.
  generalize dependent (m2 / 10)%N. generalize dependent (m2 mod 10)%N.
  intros b2 a2 (E2 & ? & ?) b1 a1 (E1 & ? & ?).
  rewrite !digit_compare by assumption.
  by_first_digit a1 a2. by_first_digit b1 b2.
  replace (m1 ?= m2)%N with Eq by (symmetry; apply N.compare_eq_iff; lia).
  reflexivity.
Qed.

Lemma render_literal (d : Datetime.date) (s : string) :
  flat_map (Datetime.render d) (Datetime.literal s) = chars s.
Proof.
  unfold Datetime.literal. induction (chars s) as [|c l IH]; [reflexivity|].
  simpl. rewrite IH. reflexivity.
Qed.

Lemma year_digits_four (y : N) :
  (1000 <= y)%N -> Datetime.year_digits y = Datetime.pad4 y.
Proof.
  intros H. unfold Datetime.year_digits.
  replace (y <? 10)%N with false by (symmetry; apply N.ltb_ge; lia).
  replace (y <? 100)%N with false by (symmetry; apply N.ltb_ge; lia).
  replace (y <? 1000)%N with false by (symmetry; apply N.ltb_ge; lia).
  reflexivity.
Qed.

Lemma strftime_canonical (date_sep : string) (d : Datetime.date) :
  (1000 <= Datetime.year d)%N ->
  Datetime.strftime d (RxNormData.DATE_VERSION_PATTERN date_sep)
  = str (Datetime.pad4 (Datetime.year d)
         ++ chars date_sep ++ Datetime.pad2 (Datetime.month d)
         ++ chars date_sep ++ Datetime.pad2 (Datetime.day d) ++ []).
Proof.
  intros Hy. unfold Datetime.strftime, RxNormData.DATE_VERSION_PATTERN.
  rewrite !flat_map_app, !render_literal. cbn [flat_map Datetime.render].
  rewrite year_digits_four by exact Hy.
  rewrite <- !app_assoc. reflexivity.
Qed.

Lemma days_in_month_le (y m : N) : (Datetime.days_in_month y m <= 31)%N.
Proof.
  unfold Datetime.days_in_month.
  repeat match goal with
         | |- context [match ?x with _ => _ end] => destruct x
         end; lia.
Qed.

Lemma make_valid (y m d : N) (dt : Datetime.date) :
  Datetime.make y m d = Ok dt ->
  dt = Datetime.mkDate y m d
  /\ (1 <= y <= 9999 /\ 1 <= m <= 12 /\ 1 <= d <= 31)%N.
Proof.
  unfold Datetime.make. intros H.
  destruct ((1 <=? y) && (y <=? 9999) && (1 <=? m) && (m <=? 12) && (1 <=? d)
            && (d <=? Datetime.days_in_month y m))%N eqn:E; [|discriminate].
  inversion H; subst. split; [reflexivity|].
  rewrite !andb_true_iff, !N.leb_le in E.
  pose proof (days_in_month_le y m). lia.
Qed.

Lemma strptime_valid (s : string) (fmt : Datetime.Format) (dt : Datetime.date) :
  Datetime.strptime s fmt = Ok dt ->
  (1 <= Datetime.year dt <= 9999 /\ 1 <= Datetime.month dt <= 12
   /\ 1 <= Datetime.day dt <= 31)%N.
Proof.
  unfold Datetime.strptime. intros H.
  destruct (Datetime.scan fmt _ (chars s)) as [[[[y m] d] rest]|]; [|discriminate].
  destruct rest; [|discriminate].
  apply make_valid in H. destruct H as [-> H]. exact H.
Qed.

Lemma strptime_raises_ValueError (s : string) (fmt : Datetime.Format) (e : PyExc) :
  Datetime.strptime s fmt = Raise e -> e = ValueError.
Proof.
  unfold Datetime.strptime, Datetime.make. intros H.
  destruct (Datetime.scan fmt _ (chars s)) as [[[[y m] d] rest]|]; [|congruence].
  destruct rest; [|congruence].
  destruct (_ && _)%bool; congruence.
Qed.

Lemma str_length (l : list ascii) : String.length (str l) = length l.
Proof. induction l as [|c l IH]; simpl; [reflexivity | rewrite IH; reflexivity]. Qed.

Lemma chars_length (s : string) : length (chars s) = String.length s.
Proof. induction s as [|c s IH]; simpl; [reflexivity | rewrite IH; reflexivity]. Qed.

Lemma rxnorm_version_result (date_sep : string) (w : World) (st : nat)
      (c : Content) (j raw : Json) :
  remote w RxNormData.version_url = Reply st c ->
  is_error_status st = false ->
  json c = Some j ->
  getitem_str j "version" = Ok raw ->
  fst (RxNormData._get_latest_version date_sep w)
  = match RxNormData.strptime_value raw RxNormData.remote_format with
    | Ok parsed =>
        Ok (Datetime.strftime parsed (RxNormData.DATE_VERSION_PATTERN date_sep))
    | Raise e => Raise (if is_ValueError e || is_KeyError e then RemoteDataError else e)
    end.
Proof.
  intros Hr Hst Hj Hraw.
  unfold RxNormData._get_latest_version. run. rewrite Hr. simpl. rewrite Hst. simpl.
  unfold response_json. simpl. rewrite Hj. simpl. rewrite Hraw. simpl.
  destruct (RxNormData.strptime_value raw RxNormData.remote_format) as [d|e];
    [reflexivity|].
  simpl. destruct (is_ValueError e || is_KeyError e); reflexivity.
Qed.

(** C8, for years from 1000 on: the version that RxNorm announces is a
    date written as [%d-%b-%Y].  [_get_latest_version] parses it and
    returns the date written in the canonical format: the year, the month
    on two digits and the day on two, in this order.  A string that is not
    such a date makes it raise [RemoteDataError], and a value that is not a
    string [TypeError]: no version is returned in their place.  For dates
    of the years 1000 to 9999 the year takes four digits, so the versions
    all have the same length, and one is below another as a string exactly
    when its date is the earlier one. *)
Theorem rxnorm_version_is_canonical_date :
  forall date_sep : string,
    (forall (w : World) (st : nat) (c : Content) (j raw : Json),
        remote w RxNormData.version_url = Reply st c ->
        is_error_status st = false ->
        json c = Some j ->
        getitem_str j "version" = Ok raw ->
        (forall parsed,
            RxNormData.strptime_value raw RxNormData.remote_format = Ok parsed ->
            fst (RxNormData._get_latest_version date_sep w)
            = Ok (Datetime.strftime parsed (RxNormData.DATE_VERSION_PATTERN date_sep)))
        /\ (forall e,
               RxNormData.strptime_value raw RxNormData.remote_format = Raise e ->
               fst (RxNormData._get_latest_version date_sep w)
               = Raise (match raw with JStr _ => RemoteDataError | _ => TypeError end)))
    /\ (forall (s1 s2 : string) (d1 d2 : Datetime.date),
           Datetime.strptime s1 RxNormData.remote_format = Ok d1 ->
           Datetime.strptime s2 RxNormData.remote_format = Ok d2 ->
           (1000 <= Datetime.year d1)%N ->
           (1000 <= Datetime.year d2)%N ->
           let v1 := Datetime.strftime d1 (RxNormData.DATE_VERSION_PATTERN date_sep) in
           let v2 := Datetime.strftime d2 (RxNormData.DATE_VERSION_PATTERN date_sep) in
           String.length v1 = 8 + 2 * String.length date_sep
           /\ String.length v2 = String.length v1
           /\ (String.ltb v1 v2 = true <-> Datetime.before d1 d2)).
Proof.
  intros date_sep. split.
  - intros w st c j raw Hr Hst Hj Hraw. split.
    + intros parsed Hp.
      rewrite (rxnorm_version_result date_sep w st c j raw Hr Hst Hj Hraw), Hp.
      reflexivity.
    + intros e He.
      rewrite (rxnorm_version_result date_sep w st c j raw Hr Hst Hj Hraw), He.
      destruct raw; simpl in He; try (inversion He; subst; reflexivity).
      apply strptime_raises_ValueError in He. subst e. reflexivity.
  - intros s1 s2 d1 d2 H1 H2 Hy1 Hy2 v1 v2.
    apply strptime_valid in H1, H2. subst v1 v2.
    rewrite !strftime_canonical by assumption.
    split; [|split].
    + rewrite str_length, !length_app, !chars_length. simpl. lia.
    + rewrite !str_length, !length_app, !chars_length. reflexivity.
    + unfold String.ltb.
      rewrite compare_pad4 by lia.
      destruct (N.compare_spec (Datetime.year d1) (Datetime.year d2)) as [Ey|Ey|Ey].
      * rewrite compare_same_prefix, compare_pad2 by lia.
        destruct (N.compare_spec (Datetime.month d1) (Datetime.month d2)) as [Em|Em|Em].
        -- rewrite compare_same_prefix, compare_pad2 by lia.
           destruct (N.compare_spec (Datetime.day d1) (Datetime.day d2)) as [Ed|Ed|Ed];
             unfold Datetime.before; simpl; split; intros; try discriminate; lia.
        -- unfold Datetime.before; split; intros; [lia | reflexivity].
        -- unfold Datetime.before; split; intros; [discriminate | lia].
      * unfold Datetime.before; split; intros; [lia | reflexivity].
      * unfold Datetime.before; split; intros; [discriminate | lia].
Qed.

Lemma rxnorm_version_is_canonical_date_witness :
  fst (RxNormData._get_latest_version "-" Examples.rxnorm_no_key) = Ok "2024-03-04"
  /\ fst (RxNormData._get_latest_version "-" Examples.rxnorm_malformed)
     = Raise RemoteDataError
  /\ (String.ltb "2024-03-04" "2024-11-01" = true
      <-> Datetime.before (Datetime.mkDate 2024 3 4) (Datetime.mkDate 2024 11 1)).
Proof.
  split; [|split].
  - apply (proj1 (proj1 (rxnorm_version_is_canonical_date "-")
                    Examples.rxnorm_no_key 200
                    (Examples.json_doc (JObj [("version", JStr "04-Mar-2024")]))
                    (JObj [("version", JStr "04-Mar-2024")]) (JStr "04-Mar-2024")
                    eq_refl eq_refl eq_refl eq_refl)
                 (Datetime.mkDate 2024 3 4)).
    reflexivity.
  - apply (proj2 (proj1 (rxnorm_version_is_canonical_date "-")
                    Examples.rxnorm_malformed 200
                    (Examples.json_doc (JObj [("version", JStr "31-Feb-2024")]))
                    (JObj [("version", JStr "31-Feb-2024")]) (JStr "31-Feb-2024")
                    eq_refl eq_refl eq_refl eq_refl)
                 ValueError).
    reflexivity.
  - apply (proj2 (rxnorm_version_is_canonical_date "-") "04-Mar-2024" "1-NOV-2024"
             (Datetime.mkDate 2024 3 4) (Datetime.mkDate 2024 11 1));
      first [reflexivity | simpl; lia].
Defined.

(** The year 999 against C8 as the spec has it: the version of 4 March 999
    has seven characters where that of 4 March 2024 has eight, and it is
    above it as a string although its date is the earlier one. *)
Lemma rxnorm_version_of_year_999 :
  Datetime.strptime "04-Mar-0999" RxNormData.remote_format
  = Ok (Datetime.mkDate 999 3 4)
  /\ fst (RxNormData._get_latest_version "" Examples.rxnorm_year_999) = Ok "9990304"
  /\ fst (RxNormData._get_latest_version "" Examples.rxnorm_no_key) = Ok "20240304"
  /\ String.length "9990304" <> String.length "20240304"
  /\ String.ltb "20240304" "9990304" = true
  /\ Datetime.before (Datetime.mkDate 999 3 4) (Datetime.mkDate 2024 3 4).
Proof.
  split; [reflexivity|]. split; [vm_compute; reflexivity|].
  split; [vm_compute; reflexivity|]. split; [discriminate|].
  split; [reflexivity|]. left. reflexivity.
Qed.

(** * Further properties of the sources *)

(** ** What the version requests return and raise *)

(** X1: the result of [DrugBankData._get_latest_version] for every answer
    of the releases endpoint.  The version and the URL are those of the
    first release, when the document is a list that starts with an object
    holding both keys.  [RemoteDataError] stands for an [IndexError] or a
    [KeyError] only; a body that is not JSON raises [JSONDecodeError], a
    document of another type [TypeError], an error status [HTTPError], no
    answer [ConnectionError]. *)
Theorem drugbank_latest_version_table (w : World) :
  fst (DrugBankData._get_latest_version w)
  = match remote w DrugBankData.releases_url with
    | NoReply => Raise ConnectionError
    | Reply st c =>
        if is_error_status st then Raise HTTPError
        else match json c with
             | None => Raise JSONDecodeError
             | Some (JArr (JObj fields :: _)) =>
                 match lookup "version" fields, lookup "url" fields with
                 | Some version, Some url => Ok (version, url)
                 | _, _ => Raise RemoteDataError
                 end
             | Some (JArr []) | Some (JObj _) | Some (JStr EmptyString) =>
                 Raise RemoteDataError
             | Some _ => Raise TypeError
             end
    end.
Proof.
  unfold DrugBankData._get_latest_version. run.
  destruct (remote w DrugBankData.releases_url) as [|st c]; [reflexivity|].
  simpl. destruct (is_error_status st); [reflexivity|].
  simpl. unfold response_json. simpl.
  destruct (json c) as [j|]; [|reflexivity].
  destruct j as [| | |s|items|fields]; try reflexivity.
  - destruct s; reflexivity.
  - destruct items as [|x items]; [reflexivity|].
    destruct x; try reflexivity.
    cbn [getitem_int nth_error getitem_str].
    destruct (lookup "version" fields); [|reflexivity].
    destruct (lookup "url" fields); reflexivity.
Qed.

Lemma rxnorm_version_by_cases (date_sep : string) (w : World) :
  fst (RxNormData._get_latest_version date_sep w)
  = match remote w RxNormData.version_url with
    | NoReply => Raise ConnectionError
    | Reply st c =>
        if is_error_status st then Raise HTTPError
        else match json c with
             | None => Raise RemoteDataError
             | Some (JObj fields) =>
                 match lookup "version" fields with
                 | None => Raise RemoteDataError
                 | Some (JStr raw_version) =>
                     match Datetime.strptime raw_version RxNormData.remote_format with
                     | Ok parsed =>
                         Ok (Datetime.strftime parsed
                               (RxNormData.DATE_VERSION_PATTERN date_sep))
                     | Raise _ => Raise RemoteDataError
                     end
                 | Some _ => Raise TypeError
                 end
             | Some _ => Raise TypeError
             end
    end.
Proof.
  unfold RxNormData._get_latest_version. run.
  destruct (remote w RxNormData.version_url) as [|st c]; [reflexivity|].
  simpl. destruct (is_error_status st); [reflexivity|].
  simpl. unfold response_json. simpl.
  destruct (json c) as [j|]; [|reflexivity].
  destruct j as [| | | | |fields]; try reflexivity.
  cbn [getitem_str].
  destruct (lookup "version" fields) as [raw|]; [|reflexivity].
  destruct raw as [| | |s| |]; try reflexivity.
  cbn [RxNormData.strptime_value].
  destruct (Datetime.strptime s RxNormData.remote_format) as [d|e] eqn:E;
    [reflexivity|].
  apply strptime_raises_ValueError in E. subst e. reflexivity.
Qed.

(** X2: the result of [RxNormData._get_latest_version] for every answer of
    the version endpoint.  Here a body that is not JSON is reported as
    [RemoteDataError], like a missing ["version"] key and a date that does
    not parse; a document that is not an object and a version that is not
    a string raise [TypeError]. *)
Theorem rxnorm_latest_version_table (date_sep : string) (w : World) :
  fst (RxNormData._get_latest_version date_sep w)
  = match remote w RxNormData.version_url with
    | NoReply => Raise ConnectionError
    | Reply st c =>
        if is_error_status st then Raise HTTPError
        else match json c with
             | None => Raise RemoteDataError
             | Some (JObj fields) =>
                 match lookup "version" fields with
                 | None => Raise RemoteDataError
                 | Some (JStr raw_version) =>
                     match Datetime.strptime raw_version RxNormData.remote_format with
                     | Ok parsed =>
                         Ok (Datetime.strftime parsed
                               (RxNormData.DATE_VERSION_PATTERN date_sep))
                     | Raise _ => Raise RemoteDataError
                     end
                 | Some _ => Raise TypeError
                 end
             | Some _ => Raise TypeError
             end
    end.
Proof.
  unfold RxNormData._get_latest_version. run.
  destruct (remote w RxNormData.version_url) as [|st c]; [reflexivity|].
  simpl. destruct (is_error_status st); [reflexivity|].
  simpl. unfold response_json. simpl.
  destruct (json c) as [j|]; [|reflexivity].
  destruct j as [| | | | |fields]; try reflexivity.
  cbn [getitem_str].
  destruct (lookup "version" fields) as [raw|]; [|reflexivity].
  destruct raw as [| | |s| |]; try reflexivity.
  cbn [RxNormData.strptime_value].
  destruct (Datetime.strptime s RxNormData.remote_format) as [d|e] eqn:E;
    [reflexivity|].
  apply strptime_raises_ValueError in E. subst e. reflexivity.
Qed.

(** ** The release line of Guide to Pharmacology *)

Arguments is_digit c : simpl never.

Lemma greedy_result {R} (P : R -> Prop) (p : ascii -> bool)
      (k : list ascii -> list ascii -> option R) :
  (forall taken rest r, k taken rest = Some r -> P r) ->
  forall s taken r, greedy p k taken s = Some r -> P r.
Proof.
  intros Hk. induction s as [|c s IH]; intros taken r H; simpl in H.
  - exact (Hk _ _ _ H).
  - destruct (p c).
    + destruct (greedy p k (c :: taken) s) as [r'|] eqn:E.
      * inversion H; subst. exact (IH _ _ E).
      * exact (Hk _ _ _ H).
    + exact (Hk _ _ _ H).
Qed.

Lemma exactly_result {R} (P : R -> Prop) (p : ascii -> bool)
      (k : list ascii -> list ascii -> option R) :
  (forall taken rest r, k taken rest = Some r -> P r) ->
  forall n s taken r, exactly n p k taken s = Some r -> P r.
Proof.
  intros Hk. induction n as [|n IH]; intros s taken r H; simpl in H.
  - exact (Hk _ _ _ H).
  - destruct s as [|c s]; [discriminate|].
    destruct (p c); [|discriminate]. exact (IH _ _ _ H).
Qed.

(** Outside a group the text of the group does not change. *)
Lemma re_run_outside_group (items : Regex) :
  forallb (fun i => match i with GroupOpen => false | _ => true end) items = true ->
  forall acc s g rest,
    re_run items false acc s = Some (g, rest) -> g = rev acc.
Proof.
  induction items as [|i items IH]; intros Hi acc s g rest H.
  - simpl in H. inversion H. reflexivity.
  - simpl in Hi. apply andb_true_iff in Hi. destruct Hi as [Hi1 Hi2].
    specialize (IH Hi2).
    assert (Hk : forall (taken rest0 : list ascii) (r : list ascii * list ascii),
               re_run items false acc rest0 = Some r -> fst r = rev acc).
    { intros _ rest0 [g1 rest1] Hr. exact (IH _ _ _ _ Hr). }
    destruct i; try discriminate Hi1; cbn [re_run] in H.
    + destruct s as [|c s]; [discriminate|]. destruct (p c); [|discriminate].
      exact (IH _ _ _ _ H).
    + destruct s as [|c s]; [discriminate|]. destruct (p c); [|discriminate].
      exact (greedy_result (fun r => fst r = rev acc) p _ Hk s [c] (g, rest) H).
    + exact (greedy_result (fun r => fst r = rev acc) p _ Hk s [] (g, rest) H).
    + exact (exactly_result (fun r => fst r = rev acc) p _ Hk n s [] (g, rest) H).
    + exact (IH _ _ _ _ H).
Qed.

Lemma re_run_lit (p : string) (items : Regex) (acc s : list ascii) :
  re_run (re_lit p ++ items) false acc s
  = if starts_with (chars p) s
    then re_run items false acc (skipn (length (chars p)) s)
    else None.
Proof.
  unfold re_lit. revert s. induction (chars p) as [|c l IH]; intros s.
  - reflexivity.
  - cbn [map app re_run starts_with length skipn].
    destruct s as [|c' s]; [reflexivity|].
    destruct (Ascii.eqb c c'); [apply IH | reflexivity].
Qed.

Lemma re_findall_first (pattern : Regex) (fuel : nat) :
  forall s first others,
    re_findall_fuel fuel pattern s = first :: others ->
    exists s' rest, re_run pattern false [] s' = Some (first, rest).
Proof.
  induction fuel as [|fuel IH]; intros s first others H; [discriminate|].
  cbn [re_findall_fuel] in H.
  destruct (re_run pattern false [] s) as [[g rest]|] eqn:E.
  - exists s, rest.
    destruct (length rest <? length s); [|destruct s]; inversion H; subst; exact E.
  - destruct s as [|c s]; [discriminate|]. exact (IH _ _ _ H).
Qed.

(** A release number: four digits, a dot, one digit. *)
Lemma release_re_shape (s g rest : list ascii) :
  re_run GToPLigandData.release_re false [] s = Some (g, rest) ->
  exists y1 y2 y3 y4 n,
    g = [y1; y2; y3; y4; "."%char; n]
    /\ is_digit y1 = true /\ is_digit y2 = true /\ is_digit y3 = true
    /\ is_digit y4 = true /\ is_digit n = true.
Proof.
  unfold GToPLigandData.release_re. rewrite re_run_lit.
  destruct (starts_with _ s); [|discriminate].
  generalize (skipn (length (chars "Current Release Version ")) s). clear s.
  intros s H. cbn [app re_run exactly] in H.
  destruct s as [|y1 s]; [discriminate|].
  destruct (is_digit y1) eqn:D1; [|discriminate].
  destruct s as [|y2 s]; [discriminate|].
  destruct (is_digit y2) eqn:D2; [|discriminate].
  destruct s as [|y3 s]; [discriminate|].
  destruct (is_digit y3) eqn:D3; [|discriminate].
  destruct s as [|y4 s]; [discriminate|].
  destruct (is_digit y4) eqn:D4; [|discriminate].
  destruct s as [|dot s]; [discriminate|].
  destruct (re_dot dot) eqn:Dd; [|discriminate].
  destruct s as [|n s]; [discriminate|].
  destruct (is_digit n) eqn:Dn; [|discriminate].
  apply re_run_outside_group in H; [|reflexivity].
  unfold re_dot in Dd. apply Ascii.eqb_eq in Dd. subst dot.
  exists y1, y2, y3, y4, n. subst g. repeat split; assumption.
Qed.

Lemma find_release_shape (r_text : list (list ascii)) (version : string) :
  GToPLigandData.find_release r_text = Ok version ->
  exists y1 y2 y3 y4 n,
    version = str [y1; y2; y3; y4; "."%char; n]
    /\ is_digit y1 = true /\ is_digit y2 = true /\ is_digit y3 = true
    /\ is_digit y4 = true /\ is_digit n = true.
Proof.
  induction r_text as [|line r_text IH]; intros H; [discriminate|].
  cbn [GToPLigandData.find_release] in H.
  destruct (contains _ line); [|exact (IH H)].
  destruct (re_findall GToPLigandData.release_re (strip line)) as [|g others] eqn:E;
    [exact (IH H)|].
  inversion H; subst version.
  destruct (re_findall_first _ _ _ _ _ E) as (s' & rest & Hrun).
  destruct (release_re_shape _ _ _ Hrun) as (y1 & y2 & y3 & y4 & n & -> & Hd).
  exists y1, y2, y3, y4, n. split; [reflexivity | exact Hd].
Qed.

Lemma gtop_version_is_find_release (w : World) (version : string) :
  fst (GToPLigandData._get_latest_version w) = Ok version ->
  exists st c,
    remote w GToPLigandData.homepage = Reply st c
    /\ is_error_status st = false
    /\ GToPLigandData.find_release (split_on newline (chars (text c))) = Ok version.
Proof.
  unfold GToPLigandData._get_latest_version. run.
  destruct (remote w GToPLigandData.homepage) as [|st c]; [discriminate|].
  simpl. destruct (is_error_status st) eqn:Est; [discriminate|].
  simpl. intros H. exists st, c. repeat split; assumption.
Qed.

Lemma chars_append (a b : string) : chars (String.append a b) = chars a ++ chars b.
Proof. induction a as [|c a IH]; simpl; [reflexivity | rewrite IH; reflexivity]. Qed.

Lemma glob_match_star_unfold (p n : list ascii) :
  glob_match ("*"%char :: p) n
  = glob_match p n
    || match n with
       | [] => false
       | _ :: n' => glob_match ("*"%char :: p) n'
       end.
Proof. destruct n; reflexivity. Qed.

Lemma glob_match_star (p a b : list ascii) :
  glob_match p b = true -> glob_match ("*"%char :: p) (a ++ b) = true.
Proof.
  intros H. induction a as [|c a IH]; rewrite glob_match_star_unfold.
  - cbn [app]. rewrite H. reflexivity.
  - cbn [app]. rewrite IH. apply orb_true_r.
Qed.

Lemma glob_match_literal (l p n : list ascii) :
  forallb (fun c => negb (Ascii.eqb c "*"%char)) l = true ->
  glob_match (l ++ p) (l ++ n) = glob_match p n.
Proof.
  induction l as [|c l IH]; intros H; [reflexivity|].
  simpl in H. apply andb_true_iff in H. destruct H as [Hc Hl].
  cbn [app glob_match]. apply negb_true_iff in Hc. rewrite Hc, Ascii.eqb_refl.
  exact (IH Hl).
Qed.

Lemma find_release_first_match (before after : list (list ascii))
      (line version : list ascii) (others : list (list ascii)) :
  (forall l, In l before ->
             contains (chars "Current Release Version") l = false
             \/ re_findall GToPLigandData.release_re (strip l) = []) ->
  contains (chars "Current Release Version") line = true ->
  re_findall GToPLigandData.release_re (strip line) = version :: others ->
  GToPLigandData.find_release (before ++ line :: after) = Ok (str version).
Proof.
  intros Hb Hc Hm. induction before as [|l before IH].
  - cbn [app GToPLigandData.find_release]. rewrite Hc, Hm. reflexivity.
  - cbn [app GToPLigandData.find_release].
    assert (IH' := IH (fun l' Hl' => Hb l' (or_intror Hl'))).
    destruct (Hb l (or_introl eq_refl)) as [Hl|Hl]; rewrite Hl; [exact IH'|].
    destruct (contains _ l); exact IH'.
Qed.

(** X3: [GToPLigandData._get_latest_version] returns the release number of
    the first line of the home page that contains the phrase and matches
    the pattern: lines before it that lack the phrase, or that hold the
    phrase without a release number in the expected form, are passed over,
    and what follows the line is not read. *)
Theorem gtop_version_is_first_matching_line :
  forall (w : World) (st : nat) (c : Content)
         (before after : list (list ascii)) (line version : list ascii)
         (others : list (list ascii)),
    remote w GToPLigandData.homepage = Reply st c ->
    is_error_status st = false ->
    split_on newline (chars (text c)) = before ++ line :: after ->
    (forall l, In l before ->
               contains (chars "Current Release Version") l = false
               \/ re_findall GToPLigandData.release_re (strip l) = []) ->
    contains (chars "Current Release Version") line = true ->
    re_findall GToPLigandData.release_re (strip line) = version :: others ->
    fst (GToPLigandData._get_latest_version w) = Ok (str version).
Proof.
  intros w st c before after line version others Hr Hst Hs Hb Hc Hm.
  unfold GToPLigandData._get_latest_version. run. rewrite Hr. simpl. rewrite Hst.
  simpl. rewrite Hs. apply (find_release_first_match _ _ _ _ others); assumption.
Qed.

Lemma gtop_version_is_first_matching_line_witness :
  fst (GToPLigandData._get_latest_version Examples.gtop_two_lines) = Ok "2024.1".
Proof.
  apply (gtop_version_is_first_matching_line Examples.gtop_two_lines 200
           (Examples.plain Examples.two_release_lines)
           [chars "<p>Current Release Version pending</p>"]
           [chars "<p>Current Release Version 2023.3 (old)</p>"]
           (chars "<p>Current Release Version 2024.1 (new)</p>")
           (chars "2024.1") []);
    try reflexivity.
  intros l [<-|[]]. right. vm_compute. reflexivity.
Defined.

Lemma gtop_ligands_name_parses (y1 y2 y3 y4 n : ascii) :
  is_digit y1 = true -> is_digit y2 = true -> is_digit y3 = true ->
  is_digit y4 = true -> is_digit n = true ->
  parse_file_version
    (GToPLigandData.ligands_name (str [y1; y2; y3; y4; "."%char; n]))
    GToPLigandData.ligands_re
  = Ok (str [y1; y2; y3; y4; "."%char; n]).
Proof.
  intros D1 D2 D3 D4 Dn.
  unfold parse_file_version, re_match, GToPLigandData.ligands_name,
    GToPLigandData.ligands_re.
  rewrite chars_append, re_run_lit.
  cbn. rewrite D1, D2, D3, D4. cbn. rewrite Dn. cbn.
  reflexivity.
Qed.

(** X4: every version that [GToPLigandData._get_latest_version] returns is
    made of four digits, a dot and one digit.  The ligands file that
    [get_latest] names after it is listed by the glob of the ligands files
    and not by the one of the mapping files, and the other way round for
    the mapping file; the version that the local branch parses from the
    name of the ligands file is the version again. *)
Theorem gtop_version_names_round_trip :
  forall (w : World) (version : string),
    fst (GToPLigandData._get_latest_version w) = Ok version ->
    (exists y1 y2 y3 y4 n,
        version = str [y1; y2; y3; y4; "."%char; n]
        /\ is_digit y1 = true /\ is_digit y2 = true /\ is_digit y3 = true
        /\ is_digit y4 = true /\ is_digit n = true)
    /\ parse_file_version (GToPLigandData.ligands_name version)
                          GToPLigandData.ligands_re
       = Ok version
    /\ glob_match (chars "gtop_ligands_*.tsv")
                  (chars (GToPLigandData.ligands_name version)) = true
    /\ glob_match (chars "gtop_ligand_id_mapping_*.tsv")
                  (chars (GToPLigandData.ligand_id_mapping_name version)) = true
    /\ glob_match (chars "gtop_ligands_*.tsv")
                  (chars (GToPLigandData.ligand_id_mapping_name version)) = false
    /\ glob_match (chars "gtop_ligand_id_mapping_*.tsv")
                  (chars (GToPLigandData.ligands_name version)) = false.
Proof.
  intros w version Hv.
  destruct (gtop_version_is_find_release w version Hv) as (st & c & _ & _ & Hf).
  destruct (find_release_shape _ _ Hf) as (y1 & y2 & y3 & y4 & n & Hs & D).
  split; [exists y1, y2, y3, y4, n; split; assumption|].
  split; [rewrite Hs; destruct D as (? & ? & ? & ? & ?);
          apply gtop_ligands_name_parses; assumption|].
  split; [|split; [|split]].
  - unfold GToPLigandData.ligands_name. rewrite !chars_append.
    change (chars "gtop_ligands_*.tsv")
      with (chars "gtop_ligands_" ++ "*"%char :: chars ".tsv").
    rewrite glob_match_literal by reflexivity.
    apply glob_match_star. reflexivity.
  - unfold GToPLigandData.ligand_id_mapping_name. rewrite !chars_append.
    change (chars "gtop_ligand_id_mapping_*.tsv")
      with (chars "gtop_ligand_id_mapping_" ++ "*"%char :: chars ".tsv").
    rewrite glob_match_literal by reflexivity.
    apply glob_match_star. reflexivity.
  - reflexivity.
  - reflexivity.
Qed.

Lemma gtop_version_names_round_trip_witness :
  fst (GToPLigandData._get_latest_version Examples.gtop_cached) = Ok "2023.2"
  /\ parse_file_version "gtop_ligands_2023.2.tsv" GToPLigandData.ligands_re
     = Ok "2023.2".
Proof.
  assert (Hv : fst (GToPLigandData._get_latest_version Examples.gtop_cached)
               = Ok "2023.2") by (vm_compute; reflexivity).
  split; [exact Hv|].
  exact (proj1 (proj2 (gtop_version_names_round_trip Examples.gtop_cached "2023.2" Hv))).
Defined.

(** ** The local scan of DrugBank *)

Section LatestFacts.
Context {A K : Type} (lt : K -> K -> bool) (key : A -> K).
Hypothesis lt_asym : forall a b, lt a b = true -> lt b a = false.
Hypothesis le_trans :
  forall a b c, lt b a = false -> lt c b = false -> lt c a = false.

Lemma last_insert_by (x : A) (s : list A) (d : A) :
  ascending lt key s ->
  last (insert_by lt key x s) d
  = match s with
    | [] => x
    | _ :: _ => if lt (key (last s d)) (key x) then x else last s d
    end.
Proof.
  revert d. induction s as [|y s IH]; intros d Hs; [reflexivity|].
  destruct Hs as [Hy Hs]. cbn [insert_by].
  destruct (lt (key y) (key x)) eqn:E.
  - rewrite !last_cons, (IH y Hs).
    destruct s as [|z s]; [cbn [last]; rewrite E; reflexivity | reflexivity].
  - rewrite !last_cons.
    assert (Hl : lt (key (last s y)) (key y) = false).
    { destruct (last_In s y) as [<-|Hin].
      - apply (le_refl lt key lt_asym).
      - apply Hy. exact Hin. }
    rewrite (le_trans _ _ _ E Hl). reflexivity.
Qed.

Lemma sorted_last_is_latest_of (l : list A) :
  match sorted lt key l with
  | [] => None
  | first :: others => Some (last others first)
  end = latest_of lt key l.
Proof.
  induction l as [|x l IH]; [reflexivity|].
  cbn [sorted fold_right latest_of]. fold (sorted lt key l).
  rewrite <- IH.
  pose proof (sorted_ascending lt key lt_asym le_trans l) as Hs.
  destruct (insert_by lt key x (sorted lt key l)) as [|f o] eqn:Ei.
  - destruct (sorted lt key l) as [|z s]; simpl in Ei; [discriminate|].
    destruct (lt (key z) (key x)); discriminate.
  - rewrite <- (last_cons o f x), <- Ei, (last_insert_by x _ x Hs).
    destruct (sorted lt key l) as [|z s]; [reflexivity|].
    rewrite last_cons. destruct (lt (key (last s z)) (key x)); reflexivity.
Qed.

Lemma latest_of_last (l : list A) (x : A) :
  (forall y, In y l -> lt (key x) (key y) = false) ->
  latest_of lt key (l ++ [x]) = Some x.
Proof.
  induction l as [|y l IH]; intros H; [reflexivity|].
  cbn [app latest_of]. rewrite IH by (intros z Hz; apply H; right; exact Hz).
  rewrite (H y (or_introl eq_refl)). reflexivity.
Qed.
End LatestFacts.

(** X5: sorting the cached files and taking the last one, as
    [DrugBankData._get_latest_local_file] does, is one pass over the files
    from the last listed to the first that replaces the file kept only by
    one of a greater version.  A file listed last is therefore returned
    unless another file has a greater version, and of two files whose
    versions are the same numbers ([5.1] and [5.01]) the one that the
    directory lists later is returned, with its version as written. *)
Theorem drugbank_local_file_is_one_pass :
  (forall (g : string) (w : World),
      fst (DrugBankData._get_latest_local_file g w)
      = match DrugBankData.file_version_pairs (glob g w) with
        | Raise e => Raise e
        | Ok pairs =>
            match latest_of list_lt (fun p => snd p) pairs with
            | None => Raise FileNotFoundError
            | Some latest => Ok (fst (fst latest), snd (fst latest))
            end
        end)
  /\ (forall (pairs : list (Path * string * list N)) (p : Path * string * list N),
         (forall q, In q pairs -> list_lt (snd p) (snd q) = false) ->
         latest_of list_lt (fun p => snd p) (pairs ++ [p]) = Some p)
  /\ fst (DrugBankData._get_latest_local_file "drugbank_*.csv"
            (Examples.cache Examples.equal_versions))
     = Ok (DataFile "drugbank_5.01.csv", "5.01")
  /\ fst (DrugBankData._get_latest_local_file "drugbank_*.csv"
            (Examples.cache (rev Examples.equal_versions)))
     = Ok (DataFile "drugbank_5.1.csv", "5.1").
Proof.
  split; [|split; [|split]].
  - intros g w. rewrite drugbank_local_file. cbv zeta.
    destruct (DrugBankData.file_version_pairs (glob g w)) as [pairs|e];
      [|reflexivity].
    rewrite <- (sorted_last_is_latest_of list_lt (fun p => snd p)
                  list_lt_asym list_le_trans pairs).
    destruct (sorted list_lt (fun p => snd p) pairs); reflexivity.
  - intros pairs p H. apply latest_of_last. exact H.
  - reflexivity.
  - reflexivity.
Qed.

Lemma drugbank_local_file_is_one_pass_witness :
  latest_of list_lt (fun p : Path * string * list N => snd p)
    ([(DataFile "drugbank_5.1.csv", "5.1", [5; 1]%N)]
     ++ [(DataFile "drugbank_5.01.csv", "5.01", [5; 1]%N)])
  = Some (DataFile "drugbank_5.01.csv", "5.01", [5; 1]%N).
Proof.
  apply (proj1 (proj2 drugbank_local_file_is_one_pass)).
  intros q [<-|[]]. reflexivity.
Defined.

Lemma int_digits_error (l : list ascii) (acc : N) (e : PyExc) :
  int_digits acc l = Raise e -> e = ValueError.
Proof.
  revert acc. induction l as [|c l IH]; intros acc H; simpl in H; [discriminate|].
  destruct (is_digit c); [exact (IH _ H) | congruence].
Qed.

Lemma py_int_error (l : list ascii) (e : PyExc) :
  py_int l = Raise e -> e = ValueError.
Proof.
  destruct l as [|c l]; [simpl; congruence|].
  intros H. exact (int_digits_error (c :: l) 0%N e H).
Qed.

Lemma map_py_int_error (l : list (list ascii)) (e : PyExc) :
  map_result py_int l = Raise e -> e = ValueError.
Proof.
  induction l as [|x l IH]; simpl; [discriminate|].
  destruct (py_int x) as [n|e'] eqn:E; simpl.
  - destruct (map_result py_int l) as [ns|e'']; simpl; [discriminate|].
    intros H. inversion H; subst. apply IH. reflexivity.
  - intros H. inversion H; subst. exact (py_int_error _ _ E).
Qed.

Lemma map_py_int_empty_component (l : list (list ascii)) :
  In [] l -> map_result py_int l = Raise ValueError.
Proof.
  induction l as [|x l IH]; intros H; [destruct H|]. simpl.
  destruct H as [->|H]; [reflexivity|].
  destruct (py_int x) as [n|e] eqn:E; simpl.
  - rewrite (IH H). reflexivity.
  - rewrite (py_int_error _ _ E). reflexivity.
Qed.

Lemma file_version_pairs_empty_component (files : list string)
      (name version : string) :
  (forall f, In f files ->
             exists v, parse_file_version f DrugBankData.version_re = Ok v) ->
  In name files ->
  parse_file_version name DrugBankData.version_re = Ok version ->
  In [] (split_on "."%char (chars version)) ->
  DrugBankData.file_version_pairs files = Raise ValueError.
Proof.
  induction files as [|f files IH]; intros Hall Hin Hv He; [destruct Hin|].
  cbn [DrugBankData.file_version_pairs].
  destruct (Hall f (or_introl eq_refl)) as [v Hf]. rewrite Hf. cbn [rbind].
  destruct (map_result py_int (split_on "."%char (chars v))) as [k|e] eqn:Ek.
  - cbn [rbind]. destruct Hin as [->|Hin].
    + rewrite Hv in Hf. inversion Hf; subst v.
      rewrite (map_py_int_empty_component _ He) in Ek. discriminate.
    + rewrite (IH (fun f' Hf' => Hall f' (or_intror Hf')) Hin Hv He). reflexivity.
  - cbn [rbind]. rewrite (map_py_int_error _ _ Ek). reflexivity.
Qed.

(** X6: when the names of all the files that the glob lists match the
    version pattern and the version of one of them has an empty component
    (two dots in a row, a dot at either end),
    [DrugBankData._get_latest_local_file] raises [ValueError]: no file is
    returned, whatever other files of well-formed versions are there.
    [get_latest(from_local=True)] raises it as well, without a request. *)
Theorem drugbank_empty_version_component :
  forall (g : string) (w : World) (name version : string),
    (forall f, In f (glob g w) ->
               exists v, parse_file_version f DrugBankData.version_re = Ok v) ->
    In name (glob g w) ->
    parse_file_version name DrugBankData.version_re = Ok version ->
    In [] (split_on "."%char (chars version)) ->
    DrugBankData._get_latest_local_file g w
    = (Raise ValueError,
       add_log DEBUG "Getting local match against pattern {glob}..." w)
    /\ (g = "drugbank_*.csv" ->
        forall py_str handle_zip,
          DrugBankData.get_latest py_str handle_zip true false w
          = (Raise ValueError,
             add_log DEBUG "Getting local match against pattern {glob}..." w)).
Proof.
  intros g w name version Hall Hin Hv He.
  assert (H : DrugBankData._get_latest_local_file g w
              = (Raise ValueError,
                 add_log DEBUG "Getting local match against pattern {glob}..." w)).
  { rewrite drugbank_local_file.
    rewrite (file_version_pairs_empty_component _ name version Hall Hin Hv He).
    reflexivity. }
  split; [exact H|].
  intros -> py_str handle_zip.
  unfold DrugBankData.get_latest. cbn [andb]. unfold bind. rewrite H. reflexivity.
Qed.

Lemma drugbank_empty_version_component_witness :
  fst (DrugBankData._get_latest_local_file "drugbank_*.csv"
         (Examples.cache Examples.empty_component))
  = Raise ValueError.
Proof.
  assert (Hall : forall f,
             In f (glob "drugbank_*.csv" (Examples.cache Examples.empty_component)) ->
             exists v, parse_file_version f DrugBankData.version_re = Ok v).
  { intros f Hf. cbv in Hf. destruct Hf as [<-|[<-|[]]]; eexists; reflexivity. }
  rewrite (proj1 (drugbank_empty_version_component "drugbank_*.csv"
                    (Examples.cache Examples.empty_component)
                    "drugbank_5..2.csv" "5..2" Hall
                    (or_intror (or_introl eq_refl)) eq_refl
                    (or_intror (or_introl eq_refl)))).
  reflexivity.
Defined.

Lemma greedy_backtrack {R} (p : ascii -> bool)
      (k : list ascii -> list ascii -> option R) (v s : list ascii) :
  forall (taken : list ascii) (r : R),
    forallb p v = true ->
    greedy p k (rev v ++ taken) s = Some r ->
    greedy p k taken (v ++ s) = Some r.
Proof.
  induction v as [|c v IH]; intros taken r Hv H; [exact H|].
  simpl in Hv. apply andb_true_iff in Hv. destruct Hv as [Hc Hv].
  cbn [app greedy]. rewrite Hc.
  rewrite (IH (c :: taken) r Hv); [reflexivity|].
  cbn [rev] in H. rewrite <- app_assoc in H. exact H.
Qed.

Lemma greedy_invariant {R} (P : R -> Prop) (Q : list ascii -> Prop)
      (p : ascii -> bool) (k : list ascii -> list ascii -> option R) :
  (forall taken c, Q taken -> p c = true -> Q (c :: taken)) ->
  (forall taken rest r, Q taken -> k taken rest = Some r -> P r) ->
  forall s taken r, Q taken -> greedy p k taken s = Some r -> P r.
Proof.
  intros Hq Hk. induction s as [|c s IH]; intros taken r Ht H; simpl in H.
  - exact (Hk _ _ _ Ht H).
  - destruct (p c) eqn:Ec.
    + destruct (greedy p k (c :: taken) s) as [r'|] eqn:E.
      * inversion H; subst. exact (IH _ _ (Hq _ _ Ht Ec) E).
      * exact (Hk _ _ _ Ht H).
    + exact (Hk _ _ _ Ht H).
Qed.

Lemma forallb_rev {A} (f : A -> bool) (l : list A) :
  forallb f l = true -> forallb f (rev l) = true.
Proof.
  rewrite !forallb_forall. intros H x Hx. apply H. apply in_rev. exact Hx.
Qed.

(** X7: under the pattern of DrugBank a file name yields a version only
    when it starts with [drugbank_], and the version is then a non-empty
    string of digits and dots.  For every such string [v] the name
    [drugbank_<v>.csv], under which [get_latest] stores the release [v],
    is listed by the glob of the local scan and yields [v] again. *)
Theorem drugbank_version_name_round_trip :
  (forall (name version : string),
      parse_file_version name DrugBankData.version_re = Ok version ->
      starts_with (chars "drugbank_") (chars name) = true
      /\ 1 <= String.length version
      /\ forallb re_digit_or_dot (chars version) = true)
  /\ (forall v : list ascii,
         1 <= length v ->
         forallb re_digit_or_dot v = true ->
         let name := String.append "drugbank_" (String.append (str v) ".csv") in
         parse_file_version name DrugBankData.version_re = Ok (str v)
         /\ glob_match (chars "drugbank_*.csv") (chars name) = true).
Proof.
  split.
  - intros name version H. unfold parse_file_version, re_match in H.
    unfold DrugBankData.version_re in H. rewrite re_run_lit in H.
    destruct (starts_with (chars "drugbank_") (chars name)); [|discriminate].
    split; [reflexivity|].
    revert H. generalize (skipn (length (chars "drugbank_")) (chars name)).
    intros s H. cbn [app re_run] in H.
    destruct s as [|c s]; [discriminate|].
    destruct (re_digit_or_dot c) eqn:Ec; [|discriminate].
    destruct (greedy _ _ [c] s) as [[g rest]|] eqn:E; [|discriminate].
    cbn [option_map fst] in H. inversion H; subst version. clear H.
    revert E.
    apply (greedy_invariant
             (fun r => 1 <= String.length (str (fst r))
                       /\ forallb re_digit_or_dot (chars (str (fst r))) = true)
             (fun taken => 1 <= length taken
                           /\ forallb re_digit_or_dot taken = true)
             re_digit_or_dot _).
    + intros taken c' [Hl Hf] Hc. split; [simpl; lia|].
      simpl. rewrite Hc, Hf. reflexivity.
    + intros taken rest0 [g0 rest1] [Hl Hf] Hr.
      change (re_run (One re_any :: re_lit "csv") false (taken ++ []) rest0
              = Some (g0, rest1)) in Hr.
      apply re_run_outside_group in Hr; [|reflexivity].
      cbn [fst]. subst g0. rewrite app_nil_r.
      unfold chars, str. rewrite str_length, list_ascii_of_string_of_list_ascii.
      split; [rewrite length_rev; exact Hl | apply forallb_rev; exact Hf].
    + split; [simpl; lia | simpl; rewrite Ec; reflexivity].
  - intros v Hl Hv name. subst name. split.
    + unfold parse_file_version, re_match, DrugBankData.version_re.
      rewrite chars_append, re_run_lit.
      rewrite chars_append.
      replace (starts_with (chars "drugbank_")
                 (chars "drugbank_" ++ chars (str v) ++ chars ".csv"))
        with true by reflexivity.
      replace (skipn (length (chars "drugbank_"))
                 (chars "drugbank_" ++ chars (str v) ++ chars ".csv"))
        with (chars (str v) ++ chars ".csv") by reflexivity.
      unfold chars at 1, str. rewrite list_ascii_of_string_of_list_ascii.
      destruct v as [|c v]; [simpl in Hl; lia|].
      simpl in Hv. apply andb_true_iff in Hv. destruct Hv as [Hc Hv].
      cbn [app re_run]. rewrite Hc.
      rewrite (greedy_backtrack re_digit_or_dot _ v (chars ".csv") [c]
                 (c :: v, []) Hv).
      * reflexivity.
      * cbn. rewrite app_nil_r, rev_app_distr, rev_involutive. reflexivity.
    + rewrite !chars_append.
      change (chars "drugbank_*.csv")
        with (chars "drugbank_" ++ "*"%char :: chars ".csv").
      rewrite glob_match_literal by reflexivity.
      apply glob_match_star. reflexivity.
Qed.

Lemma drugbank_version_name_round_trip_witness :
  parse_file_version "drugbank_5.1.10.csv" DrugBankData.version_re = Ok "5.1.10"
  /\ glob_match (chars "drugbank_*.csv") (chars "drugbank_5.1.10.csv") = true.
Proof.
  apply (proj2 drugbank_version_name_round_trip (chars "5.1.10"));
    [simpl; lia | reflexivity].
Defined.

(** ** The archive of RxNorm *)









(** ** The date of a version of RxNorm, written and read again *)

Lemma first_some_one {A B} (f : A -> option B) (x : A) :
  Datetime.first_some f [x] = f x.
Proof. simpl. destruct (f x); reflexivity. Qed.

Ltac digit_cases k H :=
  let D := fresh "D" in
  assert (D : (k = 0 \/ k = 1 \/ k = 2 \/ k = 3 \/ k = 4 \/ k = 5 \/ k = 6
               \/ k = 7 \/ k = 8 \/ k = 9)%N) by lia;
  clear H;
  repeat (destruct D as [D|D]; [subst k|]); [..|subst k].

Lemma digit_char_is_digit (k : N) :
  (k < 10)%N -> is_digit (Datetime.digit_char k) = true.
Proof. intros H. digit_cases k H; reflexivity. Qed.

Lemma digit_char_value (k : N) :
  (k < 10)%N -> digit_value (Datetime.digit_char k) = k.
Proof. intros H. digit_cases k H; reflexivity. Qed.

Lemma scan_pY (fmt : Datetime.Format) (f : Datetime.Fields) (y : N)
      (rest : list ascii) :
  (y < 10000)%N ->
  Datetime.scan (Datetime.pY :: fmt) f (Datetime.pad4 y ++ rest)
  = Datetime.scan fmt (Datetime.set_year y f) rest.
Proof.
  intros Hy. cbn [Datetime.scan]. unfold Datetime.pad4, Datetime.alternatives.
  cbn [app].
  rewrite !digit_char_is_digit, !digit_char_value by lia. cbn [andb].
  rewrite first_some_one. cbn [fst snd].
  replace (1000 * (y / 1000) + 100 * (y / 100 mod 10) + 10 * (y / 10 mod 10)
           + y mod 10)%N with y by lia.
  reflexivity.
Qed.

Lemma scan_literal (s : string) (fmt : Datetime.Format) (f : Datetime.Fields)
      (rest : list ascii) :
  Datetime.scan (Datetime.literal s ++ fmt) f (chars s ++ rest)
  = Datetime.scan fmt f rest.
Proof.
  unfold Datetime.literal. induction (chars s) as [|c l IH]; [reflexivity|].
  cbn [map app Datetime.scan Datetime.alternatives].
  rewrite Ascii.eqb_refl, first_some_one. exact IH.
Qed.

Ltac scan_case H :=
  cbn [Datetime.scan];
  match goal with
  | |- context [Datetime.alternatives ?d ?s] =>
      let t := eval vm_compute in (Datetime.alternatives d s) in
      change (Datetime.alternatives d s) with t
  end;
  cbn [Datetime.first_some fst snd]; cbv beta iota;
  unfold Datetime.set_month, Datetime.set_day in H; cbn [fst snd] in H;
  rewrite H; reflexivity.

Lemma scan_pm (fmt : Datetime.Format) (f : Datetime.Fields) (m : N)
      (rest : list ascii) (r : Datetime.Fields * list ascii) :
  (1 <= m <= 12)%N ->
  Datetime.scan fmt (Datetime.set_month m f) rest = Some r ->
  Datetime.scan (Datetime.pm :: fmt) f (Datetime.pad2 m ++ rest) = Some r.
Proof.
  intros Hm H. destruct f as [[fy fm] fd].
  assert (D : In m [1; 2; 3; 4; 5; 6; 7; 8; 9; 10; 11; 12]%N) by (simpl; lia).
  clear Hm. simpl in D.
  repeat (destruct D as [D|D]; [subst m; scan_case H|]). destruct D.
Qed.

Lemma scan_pd (fmt : Datetime.Format) (f : Datetime.Fields) (d : N)
      (rest : list ascii) (r : Datetime.Fields * list ascii) :
  (1 <= d <= 31)%N ->
  Datetime.scan fmt (Datetime.set_day d f) rest = Some r ->
  Datetime.scan (Datetime.pd :: fmt) f (Datetime.pad2 d ++ rest) = Some r.
Proof.
  intros Hd H. destruct f as [[fy fm] fd].
  assert (D : In d [1; 2; 3; 4; 5; 6; 7; 8; 9; 10; 11; 12; 13; 14; 15; 16;
                    17; 18; 19; 20; 21; 22; 23; 24; 25; 26; 27; 28; 29; 30;
                    31]%N) by (simpl; lia).
  clear Hd. simpl in D.
  repeat (destruct D as [D|D]; [subst d; scan_case H|]). destruct D.
Qed.

Lemma strptime_strftime (date_sep : string) (y m d : N) (dt : Datetime.date) :
  Datetime.make y m d = Ok dt ->
  (1000 <= y)%N ->
  Datetime.strptime
    (Datetime.strftime dt (RxNormData.DATE_VERSION_PATTERN date_sep))
    (RxNormData.DATE_VERSION_PATTERN date_sep)
  = Ok dt.
Proof.
  intros Hmake Hy0. destruct (make_valid _ _ _ _ Hmake) as [-> (Hy & Hm & Hd)].
  rewrite strftime_canonical by exact Hy0.
  cbn [Datetime.year Datetime.month Datetime.day].
  unfold Datetime.strptime, chars, str.
  rewrite list_ascii_of_string_of_list_ascii.
  unfold RxNormData.DATE_VERSION_PATTERN. cbn [app].
  rewrite scan_pY by lia.
  fold (chars date_sep). rewrite scan_literal. cbn [app].
  rewrite (scan_pm _ _ m _ (y, m, d, [])); [exact Hmake | lia |].
  rewrite scan_literal. cbn [app].
  apply scan_pd; [lia | reflexivity].
Qed.

Lemma strptime_is_make (s : string) (fmt : Datetime.Format) (dt : Datetime.date) :
  Datetime.strptime s fmt = Ok dt -> exists y m d, Datetime.make y m d = Ok dt.
Proof.
  unfold Datetime.strptime.
  destruct (Datetime.scan fmt _ (chars s)) as [[[[y m] d] rest]|]; [|discriminate].
  destruct rest; [|discriminate]. intros H. exists y, m, d. exact H.
Qed.

Lemma rxnorm_version_is_strftime (date_sep : string) (w : World) (version : string) :
  fst (RxNormData._get_latest_version date_sep w) = Ok version ->
  exists y m d dt,
    Datetime.make y m d = Ok dt
    /\ version = Datetime.strftime dt (RxNormData.DATE_VERSION_PATTERN date_sep).
Proof.
  rewrite rxnorm_version_by_cases.
  destruct (remote w RxNormData.version_url) as [|st c]; [discriminate|].
  destruct (is_error_status st); [discriminate|].
  destruct (json c) as [j|]; [|discriminate].
  destruct j as [| | | | |fields]; try discriminate.
  destruct (lookup "version" fields) as [raw|]; [|discriminate].
  destruct raw as [| | |s| |]; try discriminate.
  destruct (Datetime.strptime s RxNormData.remote_format) as [dt|] eqn:E;
    [|discriminate].
  intros H. inversion H; subst version.
  destruct (strptime_is_make _ _ _ E) as (y & m & d & Hm).
  exists y, m, d, dt. split; [exact Hm | reflexivity].
Qed.

Lemma zip_handler_trace (dl_path outfile_path : Path) (w : World) :
  trace (snd (RxNormData._zip_handler dl_path outfile_path w)) = trace w.
Proof.
  unfold RxNormData._zip_handler, os_remove.
  destruct (read_file dl_path w) as [c|]; [|reflexivity].
  destruct (zip c) as [filelist|]; [|reflexivity].
  destruct (find _ filelist) as [target|]; [|reflexivity].
  destruct (exists_ dl_path _); destruct dl_path, outfile_path; reflexivity.
Qed.

Lemma string_append_assoc (a b c : string) :
  String.append (String.append a b) c = String.append a (String.append b c).
Proof. induction a as [|x a IH]; simpl; [reflexivity | rewrite IH; reflexivity]. Qed.

(** X9: a date of the years 1000 to 9999 written in the canonical format of
    the versions is read back from it as the same date.  So for every
    version of such a year that [RxNormData._get_latest_version] returns,
    [_download_data], with the API key set, gets past the parsing of the
    version: it downloads, with [_zip_handler] as the post-processing
    step, from the URL that carries the date as month, day, year and the
    key, and this is the one request it makes.  Below the year 1000 the
    year is written on fewer than four digits: the version of 1 January
    of the year 1 is [10101], and [_download_data] raises [ValueError] on
    it without a request. *)
Theorem rxnorm_version_feeds_download :
  (forall (date_sep : string),
      (forall (y m d : N) (dt : Datetime.date),
          Datetime.make y m d = Ok dt ->
          (1000 <= y)%N ->
          Datetime.strptime
            (Datetime.strftime dt (RxNormData.DATE_VERSION_PATTERN date_sep))
            (RxNormData.DATE_VERSION_PATTERN date_sep)
          = Ok dt)
      /\ (forall (w0 : World) (version : string),
             fst (RxNormData._get_latest_version date_sep w0) = Ok version ->
             exists dt : Datetime.date,
               version
               = Datetime.strftime dt (RxNormData.DATE_VERSION_PATTERN date_sep)
               /\ ((1000 <= Datetime.year dt)%N ->
                   forall (w : World) (api_key : string) (file_path : Path),
                     environ w "UMLS_API_KEY" = Some api_key ->
                     let url :=
                       String.append
                         "https://uts-ws.nlm.nih.gov/download?url=https://download.nlm.nih.gov/umls/kss/rxnorm/RxNorm_full_"
                         (String.append
                            (str (Datetime.pad2 (Datetime.month dt)
                                  ++ Datetime.pad2 (Datetime.day dt)
                                  ++ Datetime.pad4 (Datetime.year dt)))
                            (String.append ".zip&apiKey=" api_key)) in
                     RxNormData._download_data date_sep version file_path w
                     = download_http url file_path (Some RxNormData._zip_handler) w
                     /\ trace (snd (RxNormData._download_data date_sep version
                                      file_path w))
                        = trace w ++ [EvDownload url file_path])))
  /\ fst (RxNormData._get_latest_version "" Examples.rxnorm_year_1) = Ok "10101"
  /\ RxNormData._download_data "" "10101" (DataFile "rxnorm_10101.RRF")
       Examples.rxnorm_with_key
     = (Raise ValueError, Examples.rxnorm_with_key).
Proof.
  split; [|split; [vm_compute; reflexivity | reflexivity]].
  intros date_sep. split; [exact (strptime_strftime date_sep)|].
  intros w0 version Hv.
  destruct (rxnorm_version_is_strftime _ _ _ Hv) as (y & m & d & dt & Hm & ->).
  exists dt. split; [reflexivity|].
  intros Hy w api_key file_path Henv url.
  assert (Hy' : (1000 <= y)%N).
  { destruct (make_valid _ _ _ _ Hm) as [E _]. rewrite E in Hy. exact Hy. }
  assert (E : RxNormData._download_data date_sep
                (Datetime.strftime dt (RxNormData.DATE_VERSION_PATTERN date_sep))
                file_path w
              = download_http url file_path (Some RxNormData._zip_handler) w).
  { unfold RxNormData._download_data. rewrite Henv. unfold bind, lift.
    rewrite (strptime_strftime date_sep y m d dt Hm Hy').
    subst url. unfold Datetime.strftime. cbn [flat_map Datetime.render].
    rewrite (year_digits_four _ Hy).
    rewrite app_nil_r, !string_append_assoc. reflexivity. }
  split; [exact E|].
  rewrite E. unfold download_http, bind, emit. cbn [fst snd].
  change (remote (add_event ?e w)) with (remote w).
  destruct (remote w url) as [|st c]; [reflexivity|].
  destruct (is_success_status st); [|reflexivity].
  rewrite zip_handler_trace. reflexivity.
Qed.

Lemma rxnorm_version_feeds_download_witness :
  Datetime.strptime "20240304" (RxNormData.DATE_VERSION_PATTERN "")
  = Ok (Datetime.mkDate 2024 3 4)
  /\ exists dt : Datetime.date,
      "20240304" = Datetime.strftime dt (RxNormData.DATE_VERSION_PATTERN "").
Proof.
  split.
  - exact (proj1 (proj1 rxnorm_version_feeds_download "") 2024%N 3%N 4%N
             (Datetime.mkDate 2024 3 4) eq_refl ltac:(simpl; lia)).
  - assert (Hv : fst (RxNormData._get_latest_version "" Examples.rxnorm_no_key)
                 = Ok "20240304") by (vm_compute; reflexivity).
    destruct (proj2 (proj1 rxnorm_version_feeds_download "") Examples.rxnorm_no_key
                "20240304" Hv) as (dt & Hdt & _).
    exists dt. exact Hdt.
Defined.

(** X10: with the API key set, a version that [_download_data] cannot read
    as a date in the canonical format makes it raise [ValueError] -- not
    [RemoteDataError] -- and nothing is requested, written or logged. *)
Theorem rxnorm_download_rejects_other_versions :
  forall (date_sep : string) (w : World) (api_key version : string)
         (file_path : Path) (e : PyExc),
    environ w "UMLS_API_KEY" = Some api_key ->
    Datetime.strptime version (RxNormData.DATE_VERSION_PATTERN date_sep) = Raise e ->
    RxNormData._download_data date_sep version file_path w = (Raise ValueError, w).
Proof.
  intros date_sep w api_key version file_path e Henv He.
  unfold RxNormData._download_data. rewrite Henv. unfold bind, lift. rewrite He.
  rewrite (strptime_raises_ValueError _ _ _ He). reflexivity.
Qed.

Lemma rxnorm_download_rejects_other_versions_witness :
  RxNormData._download_data "" "04-Mar-2024" (DataFile "rxnorm_04-Mar-2024.RRF")
    Examples.rxnorm_with_key
  = (Raise ValueError, Examples.rxnorm_with_key).
Proof.
  apply (rxnorm_download_rejects_other_versions "" Examples.rxnorm_with_key
           "secret" "04-Mar-2024" (DataFile "rxnorm_04-Mar-2024.RRF") ValueError);
    reflexivity.
Defined.

(** ** What [force_refresh] changes *)

(** X11: with [force_refresh] on, [get_latest] of DrugBank and of Guide to
    Pharmacology goes from the version request to the download without
    looking at the data directory and without a log record of its own.
    With [force_refresh] off it does the same whenever the file of the
    announced version (for Guide to Pharmacology: each of the two files)
    is not in the data directory. *)
Theorem force_refresh_goes_to_download :
  (forall py_str handle_zip (w : World) (version url : Json),
      fst (DrugBankData._get_latest_version w) = Ok (version, url) ->
      let latest_file :=
        DataFile (String.append "drugbank_" (String.append (py_str version) ".csv")) in
      let download :=
        (DrugBankData._download_data handle_zip
           (String.append (py_str url) "/downloads/all-drugbank-vocabulary")
           latest_file;;
         ret (latest_file, version))
          (add_event (EvGet DrugBankData.releases_url) w) in
      DrugBankData.get_latest py_str handle_zip false true w = download
      /\ (exists_ latest_file w = false ->
          DrugBankData.get_latest py_str handle_zip false false w = download))
  /\ (forall (base : DataSource) (w : World) (version : string),
         fst (GToPLigandData._get_latest_version w) = Ok version ->
         let ligands_path := DataFile (GToPLigandData.ligands_name version) in
         let ligand_id_mapping_path :=
           DataFile (GToPLigandData.ligand_id_mapping_name version) in
         let file_paths :=
           GToPLigandData.mkGtoPLigandPaths ligands_path ligand_id_mapping_path in
         let download :=
           (GToPLigandData._download_files base file_paths;;
            ret (file_paths, version))
             (add_event (EvGet GToPLigandData.homepage) w) in
         GToPLigandData.get_latest base false true w = download
         /\ (exists_ ligands_path w = false ->
             exists_ ligand_id_mapping_path w = false ->
             GToPLigandData.get_latest base false false w = download)).
Proof.
  split.
  - intros py_str handle_zip w version url Hv latest_file download.
    split; [|intros Hex]; rewrite drugbank_get_latest_remote, Hv; cbv zeta;
      cbn [fst snd negb andb]; fold latest_file; rewrite ?Hex; reflexivity.
  - intros base w version Hv ligands_path ligand_id_mapping_path file_paths download.
    split; [|intros H1 H2]; rewrite gtop_get_latest_remote, Hv; cbv zeta;
      fold ligands_path ligand_id_mapping_path; rewrite ?H1, ?H2; reflexivity.
Qed.

Lemma force_refresh_goes_to_download_witness :
  DrugBankData.get_latest Examples.py_str Examples.no_handler false true
    Examples.drugbank_cached
  = (DrugBankData._download_data Examples.no_handler
       "https://go.drugbank.com/releases/5-1-10/downloads/all-drugbank-vocabulary"
       (DataFile "drugbank_5.1.10.csv");;
     ret (DataFile "drugbank_5.1.10.csv", JStr "5.1.10"))
      (add_event (EvGet DrugBankData.releases_url) Examples.drugbank_cached)
  /\ DrugBankData.get_latest Examples.py_str Examples.no_handler false false
       Examples.drugbank_uncached
     = DrugBankData.get_latest Examples.py_str Examples.no_handler false true
         Examples.drugbank_uncached.
Proof.
  split.
  - exact (proj1 (proj1 force_refresh_goes_to_download Examples.py_str
                    Examples.no_handler Examples.drugbank_cached (JStr "5.1.10")
                    (JStr "https://go.drugbank.com/releases/5-1-10") eq_refl)).
  - destruct (proj1 force_refresh_goes_to_download Examples.py_str
                Examples.no_handler Examples.drugbank_uncached (JStr "5.1.10")
                (JStr "https://go.drugbank.com/releases/5-1-10") eq_refl)
      as [Hforce Hmiss].
    rewrite Hforce. apply Hmiss. reflexivity.
Defined.

(** X12: the two files of Guide to Pharmacology are downloaded one after
    the other, the ligands file first.  With the downloader of the spec:
    when the download of the ligands file fails, [get_latest] raises
    [NetworkError], the mapping file is not requested and the data
    directory is as before; when it succeeds and the download of the
    mapping file fails, [get_latest] raises [NetworkError] and the ligands
    file of the new version stays written while the mapping file is as it
    was before. *)
Theorem gtop_download_is_not_atomic :
  forall (w : World) (version : string),
    fst (GToPLigandData._get_latest_version w) = Ok version ->
    let ligands_path := DataFile (GToPLigandData.ligands_name version) in
    let ligand_id_mapping_path :=
      DataFile (GToPLigandData.ligand_id_mapping_name version) in
    let failed url :=
      match remote w url with
      | NoReply => true
      | Reply st _ => negb (is_success_status st)
      end in
    let out := GToPLigandData.get_latest BaseSource.data_source false true w in
    (failed GToPLigandData.ligands_url = true ->
     fst out = Raise NetworkError
     /\ trace (snd out)
        = trace w ++ [EvGet GToPLigandData.homepage;
                      EvDownload GToPLigandData.ligands_url ligands_path]
     /\ data_dir (snd out) = data_dir w)
    /\ (forall st c,
           remote w GToPLigandData.ligands_url = Reply st c ->
           is_success_status st = true ->
           failed GToPLigandData.ligand_id_mapping_url = true ->
           fst out = Raise NetworkError
           /\ read_file ligands_path (snd out) = Some c
           /\ read_file ligand_id_mapping_path (snd out)
              = read_file ligand_id_mapping_path w).
Proof.
  intros w version Hv ligands_path ligand_id_mapping_path failed out.
  subst out failed. rewrite gtop_get_latest_remote, Hv. cbv zeta.
  subst ligands_path ligand_id_mapping_path.
  unfold GToPLigandData._download_files, bind, ret.
  cbn [_http_download BaseSource.data_source GToPLigandData.ligands
       GToPLigandData.ligand_id_mapping].
  rewrite download_plain. cbv zeta. cbn [remote add_event].
  split.
  - intros Hf.
    destruct (remote w GToPLigandData.ligands_url) as [|st c].
    + cbn. split; [reflexivity|]. split; [|reflexivity].
      rewrite <- app_assoc. reflexivity.
    + apply negb_true_iff in Hf. rewrite Hf. cbn. split; [reflexivity|].
      split; [|reflexivity]. rewrite <- app_assoc. reflexivity.
  - intros st c Hr Hs Hf. rewrite Hr, Hs.
    rewrite download_plain. cbv zeta. cbn.
    destruct (remote w GToPLigandData.ligand_id_mapping_url) as [|st2 c2].
    + cbn. split; [reflexivity|]. split.
      * apply lookup_store_eq.
      * apply lookup_store_neq. reflexivity.
    + apply negb_true_iff in Hf. rewrite Hf. cbn. split; [reflexivity|]. split.
      * apply lookup_store_eq.
      * apply lookup_store_neq. reflexivity.
Qed.

Lemma gtop_download_is_not_atomic_witness :
  let out := GToPLigandData.get_latest BaseSource.data_source false true
               Examples.gtop_half_served in
  fst out = Raise NetworkError
  /\ read_file (DataFile "gtop_ligands_2023.2.tsv") (snd out)
     = Some (Examples.plain "fresh ligands")
  /\ read_file (DataFile "gtop_ligand_id_mapping_2023.2.tsv") (snd out) = None.
Proof.
  assert (Hv : fst (GToPLigandData._get_latest_version Examples.gtop_half_served)
               = Ok "2023.2") by (vm_compute; reflexivity).
  exact (proj2 (gtop_download_is_not_atomic Examples.gtop_half_served "2023.2" Hv)
           200 (Examples.plain "fresh ligands") eq_refl eq_refl eq_refl).
Defined.

(** ** Spellings of the date that RxNorm announces *)

Lemma lower_spec (c : ascii) :
  Datetime.lower c = c
  \/ (65 <= nat_of_ascii c <= 90
      /\ nat_of_ascii (Datetime.lower c) = nat_of_ascii c + 32).
Proof.
  unfold Datetime.lower.
  destruct ((65 <=? nat_of_ascii c) && (nat_of_ascii c <=? 90)) eqn:E;
    [|left; reflexivity].
  right. apply andb_true_iff in E. destruct E as [E1 E2].
  apply Nat.leb_le in E1, E2. split; [lia|].
  apply nat_ascii_embedding. lia.
Qed.

Lemma lower_idem (c : ascii) : Datetime.lower (Datetime.lower c) = Datetime.lower c.
Proof.
  destruct (lower_spec c) as [E|[Hc Hl]]; [rewrite !E; reflexivity|].
  unfold Datetime.lower at 1. rewrite Hl.
  destruct ((65 <=? nat_of_ascii c + 32) && (nat_of_ascii c + 32 <=? 90)) eqn:E;
    [|reflexivity].
  apply andb_true_iff in E. destruct E as [_ E]. apply Nat.leb_le in E. lia.
Qed.

Lemma between_lower (lo hi : nat) (c : ascii) :
  hi <= 9 ->
  Datetime.between lo hi (Datetime.lower c) = Datetime.between lo hi c.
Proof.
  intros Hhi. destruct (lower_spec c) as [E|[Hc Hl]]; [rewrite E; reflexivity|].
  unfold Datetime.between. rewrite Hl.
  replace (nat_of_ascii c + 32 <=? 48 + hi) with false
    by (symmetry; apply Nat.leb_gt; lia).
  replace (nat_of_ascii c <=? 48 + hi) with false
    by (symmetry; apply Nat.leb_gt; lia).
  rewrite !andb_false_r. reflexivity.
Qed.

Lemma between_lower_id (lo hi : nat) (c : ascii) :
  hi <= 9 -> Datetime.between lo hi c = true -> Datetime.lower c = c.
Proof.
  intros Hhi H. destruct (lower_spec c) as [E|[Hc _]]; [exact E|].
  unfold Datetime.between in H. apply andb_true_iff in H. destruct H as [_ H].
  apply Nat.leb_le in H. lia.
Qed.

Lemma space_lower (c : ascii) :
  Ascii.eqb (Datetime.lower c) " "%char = Ascii.eqb c " "%char.
Proof.
  destruct (lower_spec c) as [E0|[Hc Hl]]; [rewrite E0; reflexivity|].
  destruct (Ascii.eqb_spec (Datetime.lower c) " "%char) as [E|_].
  - rewrite E in Hl. change (nat_of_ascii " "%char) with 32 in Hl. lia.
  - destruct (Ascii.eqb_spec c " "%char) as [E|_]; [|reflexivity].
    rewrite E in Hc. change (nat_of_ascii " "%char) with 32 in Hc. lia.
Qed.

Lemma two_lower (lo1 hi1 lo2 hi2 : nat) (s : list ascii) :
  hi1 <= 9 -> hi2 <= 9 ->
  Datetime.two (Datetime.between lo1 hi1) (Datetime.between lo2 hi2)
               (map Datetime.lower s)
  = map Datetime.lowered (Datetime.two (Datetime.between lo1 hi1)
                              (Datetime.between lo2 hi2) s).
Proof.
  intros H1 H2. destruct s as [|c1 [|c2 rest]]; try reflexivity.
  cbn [map Datetime.two]. rewrite !between_lower by assumption.
  destruct (Datetime.between lo1 hi1 c1) eqn:E1; [|reflexivity].
  destruct (Datetime.between lo2 hi2 c2) eqn:E2; [|reflexivity].
  rewrite (between_lower_id _ _ _ H1 E1), (between_lower_id _ _ _ H2 E2).
  reflexivity.
Qed.

Lemma one_lower (lo hi : nat) (s : list ascii) :
  hi <= 9 ->
  Datetime.one (Datetime.between lo hi) (map Datetime.lower s)
  = map Datetime.lowered (Datetime.one (Datetime.between lo hi) s).
Proof.
  intros H. destruct s as [|c rest]; [reflexivity|].
  cbn [map Datetime.one]. rewrite between_lower by assumption.
  destruct (Datetime.between lo hi c) eqn:E; [|reflexivity].
  rewrite (between_lower_id _ _ _ H E). reflexivity.
Qed.

Lemma blank_one_lower (lo hi : nat) (s : list ascii) :
  hi <= 9 ->
  Datetime.blank_one (Datetime.between lo hi) (map Datetime.lower s)
  = map Datetime.lowered (Datetime.blank_one (Datetime.between lo hi) s).
Proof.
  intros H. destruct s as [|c1 [|c2 rest]]; try reflexivity.
  cbn [map Datetime.blank_one]. rewrite space_lower, between_lower by assumption.
  destruct (Ascii.eqb c1 " "%char); [|reflexivity].
  destruct (Datetime.between lo hi c2) eqn:E; [|reflexivity].
  rewrite (between_lower_id _ _ _ H E). reflexivity.
Qed.

Lemma with_field_lower (set : N -> Datetime.Fields -> Datetime.Fields)
      (l : list (N * list ascii)) :
  Datetime.with_field set (map Datetime.lowered l) = map Datetime.lowered (Datetime.with_field set l).
Proof.
  unfold Datetime.with_field. rewrite !map_map. reflexivity.
Qed.

Lemma alternatives_lower (d : Datetime.Directive) (s : list ascii) :
  Datetime.alternatives d (map Datetime.lower s)
  = map Datetime.lowered (Datetime.alternatives d s).
Proof.
  destruct d; cbn [Datetime.alternatives].
  - destruct s as [|c1 [|c2 [|c3 [|c4 rest]]]]; try reflexivity.
    cbn [map]. change is_digit with (Datetime.between 0 9).
    rewrite !between_lower by lia.
    destruct (Datetime.between 0 9 c1) eqn:E1; [|reflexivity].
    destruct (Datetime.between 0 9 c2) eqn:E2; [|reflexivity].
    destruct (Datetime.between 0 9 c3) eqn:E3; [|reflexivity].
    destruct (Datetime.between 0 9 c4) eqn:E4; [|reflexivity].
    rewrite (between_lower_id 0 9 c1), (between_lower_id 0 9 c2),
      (between_lower_id 0 9 c3), (between_lower_id 0 9 c4) by (assumption || lia).
    reflexivity.
  - rewrite !two_lower, one_lower by lia.
    rewrite <- !map_app. apply with_field_lower.
  - change is_digit with (Datetime.between 0 9).
    rewrite !two_lower, one_lower, blank_one_lower by lia.
    rewrite <- !map_app. apply with_field_lower.
  - destruct s as [|c1 [|c2 [|c3 rest]]]; try reflexivity.
    cbn [map]. rewrite !lower_idem.
    destruct (Datetime.index_of _ Datetime.a_month 1%N); reflexivity.
  - destruct s as [|c' rest]; [reflexivity|].
    cbn [map]. rewrite lower_idem.
    destruct (Ascii.eqb (Datetime.lower c) (Datetime.lower c')); reflexivity.
Qed.

Lemma first_some_lowered {V B} (g g' : V * list ascii -> option B)
      (k : B -> B) (l : list (V * list ascii)) :
  (forall a, g' (Datetime.lowered a) = option_map k (g a)) ->
  Datetime.first_some g' (map Datetime.lowered l) = option_map k (Datetime.first_some g l).
Proof.
  intros H. induction l as [|a l IH]; [reflexivity|].
  cbn [map Datetime.first_some]. rewrite H.
  destruct (g a); [reflexivity | exact IH].
Qed.

Lemma scan_lower (fmt : Datetime.Format) :
  forall (f : Datetime.Fields) (s : list ascii),
    Datetime.scan fmt f (map Datetime.lower s)
    = option_map Datetime.lowered (Datetime.scan fmt f s).
Proof.
  induction fmt as [|d fmt IH]; intros f s; [reflexivity|].
  cbn [Datetime.scan]. rewrite alternatives_lower.
  apply first_some_lowered. intros [u rest]. apply IH.
Qed.

Lemma strptime_lower (s1 s2 : string) (fmt : Datetime.Format) :
  map Datetime.lower (chars s1) = map Datetime.lower (chars s2) ->
  Datetime.strptime s1 fmt = Datetime.strptime s2 fmt.
Proof.
  intros H.
  assert (L : forall s,
             Datetime.strptime s fmt
             = match Datetime.scan fmt (1900, 1, 1)%N (map Datetime.lower (chars s)) with
               | Some (y, m, d, []) => Datetime.make y m d
               | _ => Raise ValueError
               end).
  { intros s. unfold Datetime.strptime. rewrite scan_lower.
    destruct (Datetime.scan fmt _ (chars s)) as [[[[y m] d] rest]|]; [|reflexivity].
    destruct rest; reflexivity. }
  rewrite (L s1), (L s2), H. reflexivity.
Qed.

Lemma strptime_padded_day (c : ascii) (rest : list ascii) :
  Datetime.between 1 9 c = true ->
  Datetime.strptime (str ("0"%char :: c :: "-"%char :: rest)) RxNormData.remote_format
  = Datetime.strptime (str (c :: "-"%char :: rest)) RxNormData.remote_format.
Proof.
  intros Hc. unfold Datetime.strptime, chars, str.
  rewrite !list_ascii_of_string_of_list_ascii.
  unfold RxNormData.remote_format. cbn [Datetime.scan].
  assert (E : Datetime.alternatives Datetime.pd ("0"%char :: c :: "-"%char :: rest)
              = Datetime.alternatives Datetime.pd (c :: "-"%char :: rest)).
  { cbn [Datetime.alternatives Datetime.two Datetime.one Datetime.blank_one].
    rewrite Hc.
    replace (Datetime.between 0 1 "-") with false by reflexivity.
    replace (is_digit "-") with false by reflexivity.
    replace (Datetime.between 1 9 "-") with false by reflexivity.
    replace (Datetime.between 3 3 "0") with false by reflexivity.
    replace (Datetime.between 1 2 "0") with false by reflexivity.
    replace (Datetime.between 0 0 "0") with true by reflexivity.
    replace (Datetime.between 1 9 "0") with false by reflexivity.
    replace (Ascii.eqb "0" " ") with false by reflexivity.
    rewrite !andb_false_r. cbn [andb app]. reflexivity. }
  rewrite E. reflexivity.
Qed.

(** X13: the version that [RxNormData._get_latest_version] returns does
    not depend on the case of the letters of the date that the remote
    announces, nor on whether a day below ten is written with a leading
    zero: two answers whose dates differ in these ways only give the same
    result. *)
Theorem rxnorm_version_ignores_spelling :
  forall (date_sep : string) (w1 w2 : World) (st1 st2 : nat) (c1 c2 : Content)
         (fields1 fields2 : list (string * Json)) (s1 s2 : string),
    remote w1 RxNormData.version_url = Reply st1 c1 ->
    is_error_status st1 = false ->
    json c1 = Some (JObj fields1) ->
    lookup "version" fields1 = Some (JStr s1) ->
    remote w2 RxNormData.version_url = Reply st2 c2 ->
    is_error_status st2 = false ->
    json c2 = Some (JObj fields2) ->
    lookup "version" fields2 = Some (JStr s2) ->
    map Datetime.lower (chars s1) = map Datetime.lower (chars s2)
    \/ (exists c rest,
           Datetime.between 1 9 c = true
           /\ s1 = str ("0"%char :: c :: "-"%char :: rest)
           /\ s2 = str (c :: "-"%char :: rest)) ->
    fst (RxNormData._get_latest_version date_sep w1)
    = fst (RxNormData._get_latest_version date_sep w2).
Proof.
  intros date_sep w1 w2 st1 st2 c1 c2 fields1 fields2 s1 s2
         Hr1 He1 Hj1 Hl1 Hr2 He2 Hj2 Hl2 Hs.
  rewrite !rxnorm_version_by_cases, Hr1, He1, Hj1, Hl1, Hr2, He2, Hj2, Hl2.
  assert (E : Datetime.strptime s1 RxNormData.remote_format
              = Datetime.strptime s2 RxNormData.remote_format).
  { destruct Hs as [Hs | (c & rest & Hc & -> & ->)].
    - apply strptime_lower. exact Hs.
    - apply strptime_padded_day. exact Hc. }
  rewrite E. reflexivity.
Qed.

Lemma rxnorm_version_ignores_spelling_witness :
  fst (RxNormData._get_latest_version "" Examples.rxnorm_upper_case)
  = fst (RxNormData._get_latest_version "" Examples.rxnorm_short_day).
Proof.
  transitivity (fst (RxNormData._get_latest_version "" Examples.rxnorm_no_key)).
  - apply (rxnorm_version_ignores_spelling "" Examples.rxnorm_upper_case
             Examples.rxnorm_no_key 200 200
             (Examples.json_doc (JObj [("version", JStr "04-MAR-2024")]))
             (Examples.json_doc (JObj [("version", JStr "04-Mar-2024")]))
             [("version", JStr "04-MAR-2024")] [("version", JStr "04-Mar-2024")]
             "04-MAR-2024" "04-Mar-2024");
      try reflexivity.
    left. reflexivity.
  - apply (rxnorm_version_ignores_spelling "" Examples.rxnorm_no_key
             Examples.rxnorm_short_day 200 200
             (Examples.json_doc (JObj [("version", JStr "04-Mar-2024")]))
             (Examples.json_doc (JObj [("version", JStr "4-Mar-2024")]))
             [("version", JStr "04-Mar-2024")] [("version", JStr "4-Mar-2024")]
             "04-Mar-2024" "4-Mar-2024");
      try reflexivity.
    right. exists "4"%char, (chars "Mar-2024"). repeat split.
Defined.

(** ** The version in the name of a ligands file *)

(** X14: under the pattern of the ligands files a file name yields a
    version only when it starts with [gtop_ligands_], and the version is
    then four digits, a dot and one or more digits -- the remote gives one
    digit after the dot, the local branch accepts more.  For every such
    version the name [gtop_ligands_<version>.tsv] yields it again. *)
Theorem gtop_local_version_shape :
  (forall (name version : string),
      parse_file_version name GToPLigandData.ligands_re = Ok version ->
      starts_with (chars "gtop_ligands_") (chars name) = true
      /\ exists y1 y2 y3 y4 release,
          version = str ([y1; y2; y3; y4; "."%char] ++ release)
          /\ forallb is_digit [y1; y2; y3; y4] = true
          /\ 1 <= length release
          /\ forallb is_digit release = true)
  /\ (forall (y1 y2 y3 y4 : ascii) (release : list ascii),
         forallb is_digit [y1; y2; y3; y4] = true ->
         1 <= length release ->
         forallb is_digit release = true ->
         let version := str ([y1; y2; y3; y4; "."%char] ++ release) in
         parse_file_version (GToPLigandData.ligands_name version)
                            GToPLigandData.ligands_re
         = Ok version).
Proof.
  split.
  - intros name version H. unfold parse_file_version, re_match in H.
    unfold GToPLigandData.ligands_re in H. rewrite re_run_lit in H.
    destruct (starts_with (chars "gtop_ligands_") (chars name)); [|discriminate].
    split; [reflexivity|].
    revert H. generalize (skipn (length (chars "gtop_ligands_")) (chars name)).
    intros s H. cbn [app re_run exactly] in H.
    destruct s as [|y1 s]; [discriminate|].
    destruct (is_digit y1) eqn:D1; [|discriminate].
    destruct s as [|y2 s]; [discriminate|].
    destruct (is_digit y2) eqn:D2; [|discriminate].
    destruct s as [|y3 s]; [discriminate|].
    destruct (is_digit y3) eqn:D3; [|discriminate].
    destruct s as [|y4 s]; [discriminate|].
    destruct (is_digit y4) eqn:D4; [|discriminate].
    destruct s as [|dot s]; [discriminate|].
    destruct (re_dot dot) eqn:Dd; [|discriminate].
    unfold re_dot in Dd. apply Ascii.eqb_eq in Dd. subst dot.
    destruct s as [|n s]; [discriminate|].
    destruct (is_digit n) eqn:Dn; [|discriminate].
    destruct (greedy _ _ [n] s) as [[g rest]|] eqn:E; [|discriminate].
    cbn [option_map fst] in H. inversion H; subst version. clear H.
    exists y1, y2, y3, y4. revert E.
    apply (greedy_invariant
             (fun r => exists release,
                  str (fst r) = str ([y1; y2; y3; y4; "."%char] ++ release)
                  /\ forallb is_digit [y1; y2; y3; y4] = true
                  /\ 1 <= length release
                  /\ forallb is_digit release = true)
             (fun taken => 1 <= length taken /\ forallb is_digit taken = true)
             is_digit _).
    + intros taken c' [Hl Hf] Hc. split; [simpl; lia|].
      cbn [forallb]. rewrite Hc, Hf. reflexivity.
    + intros taken rest0 [g0 rest1] [Hl Hf] Hr.
      change (re_run (One re_any :: re_lit "tsv") false
                (taken ++ ["."%char; y4; y3; y2; y1]) rest0
              = Some (g0, rest1)) in Hr.
      apply re_run_outside_group in Hr; [|reflexivity].
      cbn [fst]. subst g0. exists (rev taken).
      rewrite rev_app_distr. cbn [rev app].
      split; [reflexivity|].
      split; [cbn [forallb]; rewrite D1, D2, D3, D4; reflexivity|].
      split; [rewrite length_rev; exact Hl | apply forallb_rev; exact Hf].
    + split; [simpl; lia | cbn [forallb]; rewrite Dn; reflexivity].
  - intros y1 y2 y3 y4 release Hy Hl Hr version. subst version.
    cbn [forallb] in Hy. rewrite !andb_true_iff in Hy.
    destruct Hy as (D1 & D2 & D3 & D4 & _).
    destruct release as [|n release]; [simpl in Hl; lia|].
    cbn [forallb] in Hr. apply andb_true_iff in Hr. destruct Hr as [Dn Hr].
    unfold parse_file_version, re_match, GToPLigandData.ligands_name,
      GToPLigandData.ligands_re.
    rewrite chars_append, re_run_lit.
    replace (starts_with (chars "gtop_ligands_")
               (chars "gtop_ligands_"
                ++ chars (String.append
                            (str ([y1; y2; y3; y4; "."%char] ++ n :: release))
                            ".tsv")))
      with true by reflexivity.
    replace (skipn (length (chars "gtop_ligands_"))
               (chars "gtop_ligands_"
                ++ chars (String.append
                            (str ([y1; y2; y3; y4; "."%char] ++ n :: release))
                            ".tsv")))
      with (chars (String.append
                     (str ([y1; y2; y3; y4; "."%char] ++ n :: release)) ".tsv"))
      by reflexivity.
    rewrite chars_append. unfold chars at 1, str.
    rewrite list_ascii_of_string_of_list_ascii.
    cbn [app re_run exactly]. rewrite D1, D2, D3, D4.
    replace (re_dot ".") with true by reflexivity. rewrite Dn.
    rewrite (greedy_backtrack is_digit _ release (chars ".tsv") [n]
               (y1 :: y2 :: y3 :: y4 :: "."%char :: n :: release, []) Hr).
    + reflexivity.
    + cbn. rewrite <- !app_assoc. cbn [app].
      rewrite rev_app_distr, rev_involutive. reflexivity.
Qed.

Lemma gtop_local_version_shape_witness :
  parse_file_version "gtop_ligands_2023.10.tsv" GToPLigandData.ligands_re
  = Ok "2023.10".
Proof.
  exact (proj2 gtop_local_version_shape "2"%char "0"%char "2"%char "3"%char
           (chars "10") eq_refl ltac:(simpl; lia) eq_refl).
Defined.

(** ** The two branches of DrugBank on the same cache *)

Lemma lookup_listed {A} (k : string) (l : list (string * A)) :
  In k (map fst l) -> exists v, lookup k l = Some v.
Proof.
  induction l as [|[k0 v0] l IH]; intros H; [destruct H|]. simpl.
  destruct (String.eqb k k0) eqn:E; [exists v0; reflexivity|].
  destruct H as [H|H]; [|exact (IH H)].
  simpl in H. subst k0. rewrite String.eqb_refl in E. discriminate.
Qed.

(** X15: when the only file that the glob of the local scan lists is
    [drugbank_<v>.csv], for a version [v] of decimal numbers separated by
    dots, and the remote announces [v], then [get_latest] gives the same
    answer with [from_local] as without it: that file, with the version
    [v]. *)
Theorem drugbank_branches_agree :
  forall py_str handle_zip (w : World) (v : list ascii) (key : list N) (url : Json),
    (forall s, py_str (JStr s) = s) ->
    1 <= length v ->
    forallb re_digit_or_dot v = true ->
    map_result py_int (split_on "."%char v) = Ok key ->
    let name := String.append "drugbank_" (String.append (str v) ".csv") in
    glob "drugbank_*.csv" w = [name] ->
    fst (DrugBankData._get_latest_version w) = Ok (JStr (str v), url) ->
    fst (DrugBankData.get_latest py_str handle_zip true false w)
    = Ok (DataFile name, JStr (str v))
    /\ fst (DrugBankData.get_latest py_str handle_zip false false w)
       = Ok (DataFile name, JStr (str v)).
Proof.
  intros py_str handle_zip w v key url Hstr Hl Hv Hk name Hg Hr.
  assert (Hp : parse_file_version name DrugBankData.version_re = Ok (str v)).
  { unfold parse_file_version, re_match, DrugBankData.version_re. subst name.
    rewrite chars_append, re_run_lit, chars_append.
    replace (starts_with (chars "drugbank_")
               (chars "drugbank_" ++ chars (str v) ++ chars ".csv"))
      with true by reflexivity.
    replace (skipn (length (chars "drugbank_"))
               (chars "drugbank_" ++ chars (str v) ++ chars ".csv"))
      with (chars (str v) ++ chars ".csv") by reflexivity.
    unfold chars at 1, str. rewrite list_ascii_of_string_of_list_ascii.
    destruct v as [|c v]; [simpl in Hl; lia|].
    simpl in Hv. apply andb_true_iff in Hv. destruct Hv as [Hc Hv].
    cbn [app re_run]. rewrite Hc.
    rewrite (greedy_backtrack re_digit_or_dot _ v (chars ".csv") [c]
               (c :: v, []) Hv).
    - reflexivity.
    - cbn. rewrite app_nil_r, rev_app_distr, rev_involutive. reflexivity. }
  split.
  - unfold DrugBankData.get_latest. cbn [andb]. unfold bind, ret.
    rewrite drugbank_local_file, Hg. cbv zeta.
    cbn [DrugBankData.file_version_pairs]. rewrite Hp. cbn [rbind].
    unfold chars at 1, str. rewrite list_ascii_of_string_of_list_ascii, Hk.
    reflexivity.
  - rewrite drugbank_get_latest_remote, Hr. cbv zeta. cbn [fst snd negb andb].
    rewrite Hstr. fold name.
    assert (Hex : exists_ (DataFile name) w = true).
    { unfold exists_, read_file.
      destruct (lookup_listed name (data_dir w)) as [c Hc]; [|rewrite Hc; reflexivity].
      fold (listing w).
      assert (Hin : In name (glob "drugbank_*.csv" w)) by (rewrite Hg; left; reflexivity).
      unfold glob in Hin. apply filter_In in Hin. exact (proj1 Hin). }
    rewrite Hex. reflexivity.
Qed.

Lemma drugbank_branches_agree_witness :
  fst (DrugBankData.get_latest Examples.py_str Examples.no_handler true false
         Examples.drugbank_cached)
  = fst (DrugBankData.get_latest Examples.py_str Examples.no_handler false false
           Examples.drugbank_cached).
Proof.
  destruct (drugbank_branches_agree Examples.py_str Examples.no_handler
              Examples.drugbank_cached (chars "5.1.10") [5; 1; 10]%N
              (JStr "https://go.drugbank.com/releases/5-1-10")
              (fun s => eq_refl) ltac:(simpl; lia) eq_refl eq_refl eq_refl eq_refl)
    as [H1 H2].
  rewrite H1, H2. reflexivity.
Defined.
